(** * School management system: data model, role-scoped queries, dashboards

    A shallow embedding of [lms/models.py] and [lms/views.py].

    - Tables are lists of rows in storage order (primary key ascending); a
      queryset over one table without [order_by] yields rows in that order.
      Where a query joins tables, uses [__in] or combines conditions with
      [|], the database is free to return the rows in another order: the
      model lists them in storage order as well, and the claims and further
      properties about such listings are stated by membership, not by
      position.
    - Django's exceptions ([DoesNotExist], [MultipleObjectsReturned],
      [IntegrityError]) are values of an error monad.
    - Python numbers are either unbounded integers or binary64 floats, the
      latter through the bit-level operations of [SpecFloat]. *)

From Stdlib Require Import ZArith List String Bool Lia Sorted Permutation.
From Stdlib Require Import Floats.SpecFloat.
Import ListNotations.

Local Open Scope string_scope.
Local Open Scope list_scope.
Local Open Scope Z_scope.

(* ================================================================== *)
(** ** Python numbers *)

Module Py.

(** A Python [float] is an IEEE 754 binary64 number. *)
Definition prec : Z := 53.
Definition emax : Z := 1024.
Definition float := spec_float.

(** The value a function such as [calculate_attendance_percentage] returns:
    the literal [0] is an [int], the result of [round(x, 2)] is a [float]. *)
Inductive value : Type :=
| Int (z : Z)
| Float (f : float).

(** [float(n)], exact for |n| < 2^53 and rounded to nearest-even beyond. *)
Definition float_of_int (n : Z) : float := binary_normalize prec emax n 0 false.

(** [a / b] on two [int]s with [0 <= a] and [0 < b]: the quotient rounded
    once to the nearest binary64 (ties to even).  Other sign combinations do
    not occur for row counts and are mapped to NaN. *)
Definition truediv (a b : Z) : float :=
  match a, b with
  | Z0, Zpos _ => S754_zero false
  | Zpos p, Zpos q => SFdiv prec emax (S754_finite false p 0) (S754_finite false q 0)
  | _, _ => S754_nan
  end.

(** [x * n] for a [float] [x] and an [int] [n]: [n] is converted first. *)
Definition mul_int (x : float) (n : Z) : float :=
  SFmul prec emax x (float_of_int n).

(** [n / d] rounded to an integer, ties to the even neighbour ([0 < d]). *)
Definition div_half_even (n d : Z) : Z :=
  let q := n / d in
  match 2 * (n mod d) ?= d with
  | Lt => q
  | Gt => q + 1
  | Eq => if Z.even q then q else q + 1
  end.

(** The exact value of [|x| * k] rounded to an integer, ties to even. *)
Definition scaled_abs (x : float) (k : Z) : Z :=
  match x with
  | S754_finite _ m (Zneg p) => div_half_even (Zpos m * k) (2 ^ Zpos p)
  | S754_finite _ m e => Zpos m * k * 2 ^ e
  | _ => 0
  end.

(** [round(x, ndigits)] for a [float] [x >= 0] and [ndigits >= 0]: the exact
    binary value of [x] is rounded to [ndigits] decimals (ties to even), and
    that decimal is converted back to the nearest binary64.  Zeros,
    infinities and NaN round to themselves. *)
Definition round (x : float) (ndigits : Z) : float :=
  match x with
  | S754_finite false _ _ => truediv (scaled_abs x (10 ^ ndigits)) (10 ^ ndigits)
  | S754_finite true _ _ => SFopp (truediv (scaled_abs x (10 ^ ndigits)) (10 ^ ndigits))
  | _ => x
  end.

(** Two floats are the same datum (same sign, mantissa and exponent). *)
Definition float_eqb (x y : float) : bool :=
  match x, y with
  | S754_zero a, S754_zero b => Bool.eqb a b
  | S754_infinity a, S754_infinity b => Bool.eqb a b
  | S754_nan, S754_nan => true
  | S754_finite a m e, S754_finite b m' e' =>
      Bool.eqb a b && Pos.eqb m m' && Z.eqb e e'
  | _, _ => false
  end.

End Py.

(* ================================================================== *)
(** ** Exceptions *)

(** The model classes whose [objects.get] the views call. *)
Inductive model : Type := StudentModel | TeacherModel | ParentModel.

Inductive exn : Type :=
| DoesNotExist (m : model)
| MultipleObjectsReturned (m : model)
| IntegrityError.

Inductive result (A : Type) : Type :=
| Ok (a : A)
| Raise (e : exn).
Arguments Ok {A} a.
Arguments Raise {A} e.

Definition bind {A B : Type} (c : result A) (k : A -> result B) : result B :=
  match c with
  | Ok a => k a
  | Raise e => Raise e
  end.

Notation "x <- c ;; k" := (bind c (fun x => k))
  (at level 61, c at next level, right associativity).

Definition model_eqb (a b : model) : bool :=
  match a, b with
  | StudentModel, StudentModel | TeacherModel, TeacherModel
  | ParentModel, ParentModel => true
  | _, _ => false
  end.

(** [try: c  except M.DoesNotExist: h]; every other exception propagates. *)
Definition try_except_DoesNotExist {A : Type} (c : result A) (m : model)
  (h : result A) : result A :=
  match c with
  | Raise (DoesNotExist m') => if model_eqb m m' then h else c
  | _ => c
  end.

(* ================================================================== *)
(** ** Querysets *)

Module QuerySet.
Section Ops.
Context {Row : Type}.

Definition filter (p : Row -> bool) (qs : list Row) : list Row := List.filter p qs.

Definition none : list Row := [].

Definition count (qs : list Row) : Z := Z.of_nat (List.length qs).

Definition exists_ (qs : list Row) : bool :=
  match qs with [] => false | _ :: _ => true end.

Definition first (qs : list Row) : option Row :=
  match qs with [] => None | r :: _ => Some r end.

(** [qs[:n]] *)
Definition slice (n : nat) (qs : list Row) : list Row := firstn n qs.

(** [Model.objects.get(...)]: exactly one match, or an exception. *)
Definition get (m : model) (p : Row -> bool) (qs : list Row) : result Row :=
  match List.filter p qs with
  | [] => Raise (DoesNotExist m)
  | [r] => Ok r
  | _ :: _ :: _ => Raise (MultipleObjectsReturned m)
  end.

End Ops.
End QuerySet.

(* ================================================================== *)
(** ** The data model ([lms/models.py])

    A [CharField] or [TextField] is a [string] ([option string] when
    [null=True]), a [DateField] or [DateTimeField] an integer time stamp, a
    [ForeignKey] or [OneToOneField] the primary key of the row it points
    to ([option] when [null=True]), a [FileField] the stored path, a
    [DecimalField] with two decimal places an integer count of hundredths.
    [id] is the automatic primary key. *)

Module User.
Record t : Type := {
  id : Z;
  username : string;
  email : string;
  first_name : string;
  last_name : string;
  is_active : bool;
  role : string;
  phone_number : option string;
  address : option string;
  date_of_birth : option Z
}.
End User.

Module Student.
Record t : Type := {
  id : Z;
  user : Z;
  student_id : string;
  enrollment_date : Z;
  grade : string;
  section : string;
  parent : option Z
}.
End Student.

Module Teacher.
Record t : Type := {
  id : Z;
  user : Z;
  teacher_id : string;
  hire_date : Z;
  qualifications : option string
}.
End Teacher.

Module Parent.
Record t : Type := {
  id : Z;
  user : Z;
  parent_id : string;
  occupation : option string;
  relationship_to_student : string
}.
End Parent.

Module AcademicYear.
Record t : Type := {
  id : Z;
  name : string;
  start_date : Z;
  end_date : Z;
  is_active : bool
}.
End AcademicYear.

Module Class.
Record t : Type := {
  id : Z;
  grade : string;
  section : string;
  academic_year : Z;
  class_teacher : option Z
}.
End Class.

Module Subject.
Record t : Type := {
  id : Z;
  name : string;
  code : string;
  description : option string;
  grade : string
}.
End Subject.

Module Timetable.
Record t : Type := {
  id : Z;
  class_obj : Z;
  day : string;
  period : Z;
  subject : Z;
  start_time : Z;
  end_time : Z
}.
End Timetable.

Module Content.
(** The writable fields, as they arrive in [serializer.validated_data]. *)
Record fields : Type := {
  title : string;
  description : option string;
  content_type : string;
  file : string;
  subject : Z;
  grade : string;
  chapter : option string;
  uploaded_by : Z;
  is_homework : bool
}.
(** A stored row: [upload_date] is [auto_now_add]. *)
Record t : Type := {
  id : Z;
  data : fields;
  upload_date : Z
}.
(** [{**validated_data, 'uploaded_by': teacher}] *)
Definition with_uploaded_by (d : fields) (teacher : Z) : fields :=
  {| title := title d; description := description d;
     content_type := content_type d; file := file d; subject := subject d;
     grade := grade d; chapter := chapter d; uploaded_by := teacher;
     is_homework := is_homework d |}.
End Content.

Module Assessment.
Record t : Type := {
  id : Z;
  title : string;
  description : option string;
  assessment_type : string;
  subject : Z;
  class_obj : Z;
  teacher : Z;
  scheduled_date : Z;
  duration_minutes : Z;
  total_marks : Z;
  created_date : Z
}.
End Assessment.

Module Submission.
Record fields : Type := {
  assessment : Z;
  student : Z;
  marks_obtained : option Z;
  grade : option string;
  feedback : option string
}.
(** A stored row: [submitted_at] is [auto_now_add]. *)
Record t : Type := {
  id : Z;
  data : fields;
  submitted_at : Z
}.
(** [{**validated_data, 'student': student}] *)
Definition with_student (d : fields) (s : Z) : fields :=
  {| assessment := assessment d; student := s;
     marks_obtained := marks_obtained d; grade := grade d;
     feedback := feedback d |}.
End Submission.

Module Attendance.
Record fields : Type := {
  student : Z;
  date : Z;
  status : string;
  marked_by : Z;
  class_obj : Z
}.
Record t : Type := {
  id : Z;
  data : fields
}.
(** [{**validated_data, 'marked_by': teacher}] *)
Definition with_marked_by (d : fields) (teacher : Z) : fields :=
  {| student := student d; date := date d; status := status d;
     marked_by := teacher; class_obj := class_obj d |}.
End Attendance.

Module FeePayment.
Record t : Type := {
  id : Z;
  student : Z;
  fee_structure : Z;
  amount_paid : Z;
  payment_date : Z;
  payment_method : string;
  transaction_id : option string;
  is_paid : bool
}.
End FeePayment.

Module Announcement.
Record t : Type := {
  id : Z;
  title : string;
  content : string;
  created_by : Z;
  created_date : Z;
  target_audience : string;
  is_active : bool
}.
End Announcement.

(** The database: one list per table, rows in storage order.
    [teacher_subjects] is the join table of [Teacher.subjects]
    (pairs of a teacher key and a subject key). *)
Record DB : Type := {
  users : list User.t;
  students : list Student.t;
  teachers : list Teacher.t;
  parents : list Parent.t;
  academic_years : list AcademicYear.t;
  classes : list Class.t;
  subjects : list Subject.t;
  teacher_subjects : list (Z * Z);
  timetables : list Timetable.t;
  contents : list Content.t;
  assessments : list Assessment.t;
  submissions : list Submission.t;
  attendances : list Attendance.t;
  fee_payments : list FeePayment.t;
  announcements : list Announcement.t
}.

Definition empty_db : DB :=
  {| users := []; students := []; teachers := []; parents := [];
     academic_years := []; classes := []; subjects := [];
     teacher_subjects := []; timetables := []; contents := [];
     assessments := []; submissions := []; attendances := [];
     fee_payments := []; announcements := [] |}.

Definition set_contents (db : DB) (l : list Content.t) : DB :=
  {| users := users db; students := students db; teachers := teachers db;
     parents := parents db; academic_years := academic_years db;
     classes := classes db; subjects := subjects db;
     teacher_subjects := teacher_subjects db; timetables := timetables db;
     contents := l;
     assessments := assessments db; submissions := submissions db;
     attendances := attendances db; fee_payments := fee_payments db;
     announcements := announcements db |}.

Definition set_submissions (db : DB) (l : list Submission.t) : DB :=
  {| users := users db; students := students db; teachers := teachers db;
     parents := parents db; academic_years := academic_years db;
     classes := classes db; subjects := subjects db;
     teacher_subjects := teacher_subjects db; timetables := timetables db;
     contents := contents db;
     assessments := assessments db; submissions := l;
     attendances := attendances db; fee_payments := fee_payments db;
     announcements := announcements db |}.

Definition set_attendances (db : DB) (l : list Attendance.t) : DB :=
  {| users := users db; students := students db; teachers := teachers db;
     parents := parents db; academic_years := academic_years db;
     classes := classes db; subjects := subjects db;
     teacher_subjects := teacher_subjects db; timetables := timetables db;
     contents := contents db;
     assessments := assessments db; submissions := submissions db;
     attendances := l; fee_payments := fee_payments db;
     announcements := announcements db |}.

(* ================================================================== *)
(** ** Inserts and the constraints the models declare *)

(** The key an [AutoField] gives to the next row: larger than every stored
    key.  No row is ever deleted here, so this is the database's sequence;
    the properties below use only that a row is appended, not its key. *)
Definition next_pk (pks : list Z) : Z := 1 + fold_right Z.max 0 pks.

(** A row with primary key [k] is stored. *)
Definition has_pk {Row : Type} (pk : Row -> Z) (k : Z) (rows : list Row) : bool :=
  existsb (fun r => pk r =? k) rows.

(** The stored state once a request is over: a write that raised is not
    committed. *)
Definition commit (db : DB) (r : result DB) : DB :=
  match r with
  | Ok db' => db'
  | Raise _ => db
  end.

(** [Content.objects.create] on the fields [d]: [subject] and [uploaded_by] are
    foreign keys. *)
Definition Content_objects_create (now : Z) (d : Content.fields) (db : DB)
  : result DB :=
  if negb (has_pk Subject.id (Content.subject d) (subjects db)
           && has_pk Teacher.id (Content.uploaded_by d) (teachers db))
  then Raise IntegrityError
  else
    let row := {| Content.id := next_pk (map Content.id (contents db));
                  Content.data := d;
                  Content.upload_date := now |} in
    Ok (set_contents db (contents db ++ [row])).

(** Two submissions agree on [unique_together = ['assessment', 'student']]. *)
Definition same_submission_key (d : Submission.fields) (s : Submission.t) : bool :=
  (Submission.assessment (Submission.data s) =? Submission.assessment d)
  && (Submission.student (Submission.data s) =? Submission.student d).

(** [Submission.objects.create] on the fields [d] *)
Definition Submission_objects_create (now : Z) (d : Submission.fields) (db : DB)
  : result DB :=
  if existsb (same_submission_key d) (submissions db)
  then Raise IntegrityError
  else if negb (has_pk Assessment.id (Submission.assessment d) (assessments db)
                && has_pk Student.id (Submission.student d) (students db))
  then Raise IntegrityError
  else
    let row := {| Submission.id := next_pk (map Submission.id (submissions db));
                  Submission.data := d;
                  Submission.submitted_at := now |} in
    Ok (set_submissions db (submissions db ++ [row])).

(** Two attendance rows agree on [unique_together = ['student', 'date']]. *)
Definition same_attendance_key (d : Attendance.fields) (a : Attendance.t) : bool :=
  (Attendance.student (Attendance.data a) =? Attendance.student d)
  && (Attendance.date (Attendance.data a) =? Attendance.date d).

(** [Attendance.objects.create] on the fields [d] *)
Definition Attendance_objects_create (d : Attendance.fields) (db : DB)
  : result DB :=
  if existsb (same_attendance_key d) (attendances db)
  then Raise IntegrityError
  else if negb (has_pk Student.id (Attendance.student d) (students db)
                && has_pk Teacher.id (Attendance.marked_by d) (teachers db)
                && has_pk Class.id (Attendance.class_obj d) (classes db))
  then Raise IntegrityError
  else
    let row := {| Attendance.id := next_pk (map Attendance.id (attendances db));
                  Attendance.data := d |} in
    Ok (set_attendances db (attendances db ++ [row])).

(* ================================================================== *)
(** ** Lookups the views share *)

(** [Student.objects.get(user=user)] and its two siblings. *)
Definition Student_objects_get (db : DB) (user : User.t) : result Student.t :=
  QuerySet.get StudentModel (fun s => Student.user s =? User.id user) (students db).

Definition Teacher_objects_get (db : DB) (user : User.t) : result Teacher.t :=
  QuerySet.get TeacherModel (fun t => Teacher.user t =? User.id user) (teachers db).

Definition Parent_objects_get (db : DB) (user : User.t) : result Parent.t :=
  QuerySet.get ParentModel (fun p => Parent.user p =? User.id user) (parents db).

(** [class_obj__grade=g, class_obj__section=s] on a row whose [class_obj]
    is [k]: the join with the class table.  It decides which rows a listing
    holds; the order in which a join returns them is the database's. *)
Definition class_matches (db : DB) (k : Z) (g s : string) : bool :=
  existsb (fun c => (Class.id c =? k)
                    && String.eqb (Class.grade c) g
                    && String.eqb (Class.section c) s) (classes db).

(** [parent=p] on a student row. *)
Definition has_parent (p : Parent.t) (s : Student.t) : bool :=
  match Student.parent s with
  | Some k => k =? Parent.id p
  | None => false
  end.

(** [student__parent=p] on a row whose [student] is [k] (a join: membership
    only, as for [class_matches]). *)
Definition student_has_parent (db : DB) (k : Z) (p : Parent.t) : bool :=
  existsb (fun s => (Student.id s =? k) && has_parent p s) (students db).

(** [assessment__teacher=t] on a row whose [assessment] is [k]. *)
Definition assessment_has_teacher (db : DB) (k : Z) (t : Teacher.t) : bool :=
  existsb (fun a => (Assessment.id a =? k)
                    && (Assessment.teacher a =? Teacher.id t)) (assessments db).

(** [teacher.subjects.all()] *)
Definition Teacher_subjects_all (db : DB) (t : Teacher.t) : list Subject.t :=
  QuerySet.filter
    (fun s => existsb (fun ts => (fst ts =? Teacher.id t) && (snd ts =? Subject.id s))
                      (teacher_subjects db))
    (subjects db).

(** [student__in=children] (a subquery: membership only). *)
Definition student_in (children : list Student.t) (k : Z) : bool :=
  has_pk Student.id k children.

(* ================================================================== *)
(** ** [calculate_attendance_percentage] *)

Definition calculate_attendance_percentage (db : DB) (student : Student.t)
  : Py.value :=
  let total_days :=
    QuerySet.count
      (QuerySet.filter
         (fun a => Attendance.student (Attendance.data a) =? Student.id student)
         (attendances db)) in
  if total_days =? 0 then Py.Int 0
  else
    let present_days :=
      QuerySet.count
        (QuerySet.filter
           (fun a => (Attendance.student (Attendance.data a) =? Student.id student)
                     && String.eqb (Attendance.status (Attendance.data a)) "present")
           (attendances db)) in
    Py.Float (Py.round (Py.mul_int (Py.truediv present_days total_days) 100) 2).

(* ================================================================== *)
(** ** The viewsets ([lms/views.py])

    [get_queryset] is run on the database [db] for the authenticated caller
    [user] and gives the rows the list endpoint serialises; [perform_create]
    receives the validated fields of the request.  [super().get_queryset()]
    is the class attribute [queryset], every row of the table. *)

Module StudentViewSet.
Definition get_queryset (db : DB) (user : User.t) : result (list Student.t) :=
  if String.eqb (User.role user) "student" then
    Ok (QuerySet.filter (fun s => Student.user s =? User.id user) (students db))
  else if String.eqb (User.role user) "parent" then
    try_except_DoesNotExist
      (parent <- Parent_objects_get db user ;;
       Ok (QuerySet.filter (has_parent parent) (students db)))
      ParentModel
      (Ok QuerySet.none)
  else Ok (students db).
End StudentViewSet.

Module TimetableViewSet.
Definition get_queryset (db : DB) (user : User.t) : result (list Timetable.t) :=
  if String.eqb (User.role user) "student" then
    try_except_DoesNotExist
      (student <- Student_objects_get db user ;;
       Ok (QuerySet.filter
             (fun t => class_matches db (Timetable.class_obj t)
                         (Student.grade student) (Student.section student))
             (timetables db)))
      StudentModel
      (Ok QuerySet.none)
  else if String.eqb (User.role user) "teacher" then
    try_except_DoesNotExist
      (teacher <- Teacher_objects_get db user ;;
       Ok (QuerySet.filter
             (fun t => has_pk Subject.id (Timetable.subject t)
                         (Teacher_subjects_all db teacher))
             (timetables db)))
      TeacherModel
      (Ok QuerySet.none)
  else Ok (timetables db).
End TimetableViewSet.

Module ContentViewSet.
Definition get_queryset (db : DB) (user : User.t) : result (list Content.t) :=
  if String.eqb (User.role user) "student" then
    try_except_DoesNotExist
      (student <- Student_objects_get db user ;;
       Ok (QuerySet.filter
             (fun c => String.eqb (Content.grade (Content.data c)) (Student.grade student))
             (contents db)))
      StudentModel
      (Ok QuerySet.none)
  else Ok (contents db).

Definition perform_create (now : Z) (db : DB) (user : User.t)
  (validated_data : Content.fields) : result DB :=
  if String.eqb (User.role user) "teacher" then
    teacher <- Teacher_objects_get db user ;;
    Content_objects_create now
      (Content.with_uploaded_by validated_data (Teacher.id teacher)) db
  else Ok db.
End ContentViewSet.

Module AssessmentViewSet.
Definition get_queryset (db : DB) (user : User.t) : result (list Assessment.t) :=
  if String.eqb (User.role user) "student" then
    try_except_DoesNotExist
      (student <- Student_objects_get db user ;;
       Ok (QuerySet.filter
             (fun a => class_matches db (Assessment.class_obj a)
                         (Student.grade student) (Student.section student))
             (assessments db)))
      StudentModel
      (Ok QuerySet.none)
  else if String.eqb (User.role user) "teacher" then
    try_except_DoesNotExist
      (teacher <- Teacher_objects_get db user ;;
       Ok (QuerySet.filter
             (fun a => Assessment.teacher a =? Teacher.id teacher)
             (assessments db)))
      TeacherModel
      (Ok QuerySet.none)
  else Ok (assessments db).
End AssessmentViewSet.

Module SubmissionViewSet.
Definition get_queryset (db : DB) (user : User.t) : result (list Submission.t) :=
  if String.eqb (User.role user) "student" then
    try_except_DoesNotExist
      (student <- Student_objects_get db user ;;
       Ok (QuerySet.filter
             (fun s => Submission.student (Submission.data s) =? Student.id student)
             (submissions db)))
      StudentModel
      (Ok QuerySet.none)
  else if String.eqb (User.role user) "teacher" then
    try_except_DoesNotExist
      (teacher <- Teacher_objects_get db user ;;
       Ok (QuerySet.filter
             (fun s => assessment_has_teacher db
                         (Submission.assessment (Submission.data s)) teacher)
             (submissions db)))
      TeacherModel
      (Ok QuerySet.none)
  else Ok (submissions db).

Definition perform_create (now : Z) (db : DB) (user : User.t)
  (validated_data : Submission.fields) : result DB :=
  if String.eqb (User.role user) "student" then
    student <- Student_objects_get db user ;;
    Submission_objects_create now
      (Submission.with_student validated_data (Student.id student)) db
  else Ok db.
End SubmissionViewSet.

Module AttendanceViewSet.
Definition get_queryset (db : DB) (user : User.t) : result (list Attendance.t) :=
  if String.eqb (User.role user) "student" then
    try_except_DoesNotExist
      (student <- Student_objects_get db user ;;
       Ok (QuerySet.filter
             (fun a => Attendance.student (Attendance.data a) =? Student.id student)
             (attendances db)))
      StudentModel
      (Ok QuerySet.none)
  else if String.eqb (User.role user) "teacher" then
    try_except_DoesNotExist
      (teacher <- Teacher_objects_get db user ;;
       Ok (QuerySet.filter
             (fun a => Attendance.marked_by (Attendance.data a) =? Teacher.id teacher)
             (attendances db)))
      TeacherModel
      (Ok QuerySet.none)
  else Ok (attendances db).

Definition perform_create (db : DB) (user : User.t)
  (validated_data : Attendance.fields) : result DB :=
  if String.eqb (User.role user) "teacher" then
    teacher <- Teacher_objects_get db user ;;
    Attendance_objects_create
      (Attendance.with_marked_by validated_data (Teacher.id teacher)) db
  else Ok db.
End AttendanceViewSet.

Module FeePaymentViewSet.
Definition get_queryset (db : DB) (user : User.t) : result (list FeePayment.t) :=
  if String.eqb (User.role user) "student" then
    try_except_DoesNotExist
      (student <- Student_objects_get db user ;;
       Ok (QuerySet.filter
             (fun p => FeePayment.student p =? Student.id student)
             (fee_payments db)))
      StudentModel
      (Ok QuerySet.none)
  else if String.eqb (User.role user) "parent" then
    try_except_DoesNotExist
      (parent <- Parent_objects_get db user ;;
       Ok (QuerySet.filter
             (fun p => student_has_parent db (FeePayment.student p) parent)
             (fee_payments db)))
      ParentModel
      (Ok QuerySet.none)
  else Ok (fee_payments db).
End FeePaymentViewSet.

(** The create endpoint every [ModelViewSet] inherits: validate the payload
    (400 when invalid), call [perform_create], answer 201.  The serializer's
    validation is whatever the framework derives from the model; it is a
    parameter here. *)
Section CreateModelMixin.
Context {Payload Fields : Type}.
Variable is_valid : DB -> Payload -> option Fields.
Variable perform_create : DB -> User.t -> Fields -> result DB.

Definition create (db : DB) (user : User.t) (payload : Payload)
  : result (DB * Z) :=
  match is_valid db payload with
  | None => Ok (db, 400)
  | Some validated_data =>
      db' <- perform_create db user validated_data ;;
      Ok (db', 201)
  end.
End CreateModelMixin.

(* ================================================================== *)
(** ** The dashboard endpoints

    A serializer turns a row into a dictionary of its fields; the rows stand
    for their serialised form.  [Response(data)] has status 200 unless one is
    given; the error dictionaries have the single key ['error']. *)

Inductive body (D : Type) : Type :=
| Data (d : D)
| ErrorDict (error : string).
Arguments Data {D} d.
Arguments ErrorDict {D} error.

Record Response (D : Type) : Type := {
  data : body D;
  status : Z
}.
Arguments data {D} r.
Arguments status {D} r.

Definition respond {D : Type} (d : D) : Response D :=
  {| data := Data d; status := 200 |}.

Definition respond_error {D : Type} (msg : string) (code : Z) : Response D :=
  {| data := ErrorDict msg; status := code |}.

Record admin_data : Type := {
  total_students : Z;
  total_teachers : Z;
  total_parents : Z;
  total_classes : Z;
  total_subjects : Z;
  active_academic_year : option AcademicYear.t;
  recent_announcements : list Announcement.t
}.

Record teacher_data : Type := {
  teacher_info : Teacher.t;
  assigned_subjects : list Subject.t;
  teacher_upcoming_assessments : list Assessment.t;
  teacher_recent_content : list Content.t
}.

Record student_data : Type := {
  student_info : Student.t;
  timetable : list Timetable.t;
  upcoming_assessments : list Assessment.t;
  recent_content : list Content.t;
  attendance_percentage : Py.value
}.

Record parent_data : Type := {
  parent_info : Parent.t;
  children : list Student.t;
  children_attendance : list (Student.t * Py.value);
  unpaid_fees : list FeePayment.t
}.

Definition admin_dashboard (db : DB) (user : User.t) : Response admin_data :=
  respond
    {| total_students := QuerySet.count (students db);
       total_teachers := QuerySet.count (teachers db);
       total_parents := QuerySet.count (parents db);
       total_classes := QuerySet.count (classes db);
       total_subjects := QuerySet.count (subjects db);
       active_academic_year :=
         if QuerySet.exists_ (QuerySet.filter AcademicYear.is_active (academic_years db))
         then QuerySet.first (QuerySet.filter AcademicYear.is_active (academic_years db))
         else None;
       recent_announcements :=
         QuerySet.slice 5 (QuerySet.filter Announcement.is_active (announcements db)) |}.

Definition teacher_dashboard (now : Z) (db : DB) (user : User.t)
  : result (Response teacher_data) :=
  try_except_DoesNotExist
    (teacher <- Teacher_objects_get db user ;;
     Ok (respond
           {| teacher_info := teacher;
              assigned_subjects := Teacher_subjects_all db teacher;
              teacher_upcoming_assessments :=
                QuerySet.slice 5
                  (QuerySet.filter
                     (fun a => (Assessment.teacher a =? Teacher.id teacher)
                               && (now <=? Assessment.scheduled_date a))
                     (assessments db));
              teacher_recent_content :=
                QuerySet.slice 5
                  (QuerySet.filter
                     (fun c => Content.uploaded_by (Content.data c) =? Teacher.id teacher)
                     (contents db)) |}))
    TeacherModel
    (Ok (respond_error "Teacher profile not found" 404)).

Definition student_dashboard (now : Z) (db : DB) (user : User.t)
  : result (Response student_data) :=
  try_except_DoesNotExist
    (student <- Student_objects_get db user ;;
     Ok (respond
           {| student_info := student;
              timetable :=
                QuerySet.filter
                  (fun t => class_matches db (Timetable.class_obj t)
                              (Student.grade student) (Student.section student))
                  (timetables db);
              upcoming_assessments :=
                QuerySet.slice 5
                  (QuerySet.filter
                     (fun a => class_matches db (Assessment.class_obj a)
                                 (Student.grade student) (Student.section student)
                               && (now <=? Assessment.scheduled_date a))
                     (assessments db));
              recent_content :=
                QuerySet.slice 5
                  (QuerySet.filter
                     (fun c => String.eqb (Content.grade (Content.data c))
                                 (Student.grade student))
                     (contents db));
              attendance_percentage := calculate_attendance_percentage db student |}))
    StudentModel
    (Ok (respond_error "Student profile not found" 404)).

Definition parent_dashboard (db : DB) (user : User.t)
  : result (Response parent_data) :=
  try_except_DoesNotExist
    (parent <- Parent_objects_get db user ;;
     let children := QuerySet.filter (has_parent parent) (students db) in
     Ok (respond
           {| parent_info := parent;
              children := children;
              children_attendance :=
                map (fun child => (child, calculate_attendance_percentage db child))
                    children;
              unpaid_fees :=
                QuerySet.filter
                  (fun p => student_in children (FeePayment.student p)
                            && negb (FeePayment.is_paid p))
                  (fee_payments db) |}))
    ParentModel
    (Ok (respond_error "Parent profile not found" 404)).

(* ================================================================== *)
(** ** Notions the properties are stated with *)

(** The attendance rows of one student, and those among them marked
    ['present']. *)
Definition attendance_of (db : DB) (student : Student.t) : list Attendance.t :=
  List.filter (fun a => Attendance.student (Attendance.data a) =? Student.id student)
              (attendances db).

Definition is_present (a : Attendance.t) : bool :=
  String.eqb (Attendance.status (Attendance.data a)) "present".

(** "present / total x 100, rounded to 2 decimal places", in Python's
    arithmetic. *)
Definition percent_2dp (present total : Z) : Py.float :=
  Py.round (Py.mul_int (Py.truediv present total) 100) 2.

(** The percentage as the specification words it. *)
Definition attendance_percentage_spec (db : DB) (student : Student.t) : Py.value :=
  let total := List.length (attendance_of db student) in
  let present := List.length (List.filter is_present (attendance_of db student)) in
  match total with
  | O => Py.Int 0
  | S _ => Py.Float (percent_2dp (Z.of_nat present) (Z.of_nat total))
  end.

(** [n] hundredths is a two-decimal number nearest to the exact value of
    [100 * present / total]. *)
Definition nearest_hundredths (present total n : Z) : bool :=
  2 * Z.abs (10000 * present - n * total) <=? total.

(** The integer number of hundredths [percent_2dp] settles on. *)
Definition percent_hundredths (present total : Z) : Z :=
  Py.scaled_abs (Py.mul_int (Py.truediv present total) 100) 100.

Definition percent_check (total present : Z) : bool :=
  let x := Py.mul_int (Py.truediv present total) 100 in
  let n := Py.scaled_abs x 100 in
  nearest_hundredths present total n
  && Py.float_eqb (Py.round x 2) (Py.truediv n 100).

Definition upto (n : nat) : list Z := map Z.of_nat (seq 0 n).

(** [percent_check] on every [0 <= present <= total] with [1 <= total <= n]. *)
Definition percent_check_upto (n : nat) : bool :=
  forallb (fun t => forallb (percent_check t) (upto (S (Z.to_nat t))))
          (map Z.succ (upto n)).

(** The number of stored submissions with the key of [d]. *)
Definition submission_count (d : Submission.fields) (db : DB) : nat :=
  List.length (List.filter (same_submission_key d) (submissions db)).

Definition submission_key (s : Submission.t) : Z * Z :=
  (Submission.assessment (Submission.data s), Submission.student (Submission.data s)).

(** No two stored submissions share (assessment, student). *)
Definition submissions_unique (db : DB) : Prop :=
  NoDup (map submission_key (submissions db)).

(** The role of the caller names a profile table in which the caller has
    no row. *)
Definition lacks_profile (db : DB) (user : User.t) : bool :=
  if String.eqb (User.role user) "student" then
    negb (existsb (fun s => Student.user s =? User.id user) (students db))
  else if String.eqb (User.role user) "teacher" then
    negb (existsb (fun t => Teacher.user t =? User.id user) (teachers db))
  else if String.eqb (User.role user) "parent" then
    negb (existsb (fun p => Parent.user p =? User.id user) (parents db))
  else false.

(** The seven list operations that look at the caller's role. *)
Inductive resource : Type :=
| StudentList | TimetableList | ContentList | AssessmentList
| SubmissionList | AttendanceList | FeePaymentList.

Definition row (r : resource) : Type :=
  match r with
  | StudentList => Student.t
  | TimetableList => Timetable.t
  | ContentList => Content.t
  | AssessmentList => Assessment.t
  | SubmissionList => Submission.t
  | AttendanceList => Attendance.t
  | FeePaymentList => FeePayment.t
  end.

Definition table (r : resource) (db : DB) : list (row r) :=
  match r with
  | StudentList => students db
  | TimetableList => timetables db
  | ContentList => contents db
  | AssessmentList => assessments db
  | SubmissionList => submissions db
  | AttendanceList => attendances db
  | FeePaymentList => fee_payments db
  end.

Definition list_rows (r : resource) (db : DB) (user : User.t)
  : result (list (row r)) :=
  match r with
  | StudentList => StudentViewSet.get_queryset db user
  | TimetableList => TimetableViewSet.get_queryset db user
  | ContentList => ContentViewSet.get_queryset db user
  | AssessmentList => AssessmentViewSet.get_queryset db user
  | SubmissionList => SubmissionViewSet.get_queryset db user
  | AttendanceList => AttendanceViewSet.get_queryset db user
  | FeePaymentList => FeePaymentViewSet.get_queryset db user
  end.

(** The roles each [get_queryset] has a branch for. *)
Definition scoped_by (r : resource) (role : string) : bool :=
  match r with
  | StudentList | FeePaymentList =>
      String.eqb role "student" || String.eqb role "parent"
  | ContentList => String.eqb role "student"
  | TimetableList | AssessmentList | SubmissionList | AttendanceList =>
      String.eqb role "student" || String.eqb role "teacher"
  end.

(** [a] was created no earlier than [b]. *)
Definition no_older (a b : Announcement.t) : Prop :=
  Announcement.created_date b <= Announcement.created_date a.

(** Announcements by recency: insertion sort, most recently created first. *)
Fixpoint insert_by_recency (a : Announcement.t) (l : list Announcement.t)
  : list Announcement.t :=
  match l with
  | [] => [a]
  | b :: l' =>
      if Announcement.created_date b <=? Announcement.created_date a
      then a :: l
      else b :: insert_by_recency a l'
  end.

Definition sort_by_recency (l : list Announcement.t) : list Announcement.t :=
  fold_right insert_by_recency [] l.

(** "The [n] most recent active announcements, most recent first." *)
Definition most_recent_active (n : nat) (l : list Announcement.t)
  : list Announcement.t :=
  firstn n (sort_by_recency (List.filter Announcement.is_active l)).

(* ================================================================== *)
(** ** A small school, used for the concrete runs *)

Module Sample.

Definition mk_user (k : Z) (name role : string) : User.t :=
  {| User.id := k; User.username := name; User.email := "";
     User.first_name := name; User.last_name := ""; User.is_active := true;
     User.role := role; User.phone_number := None; User.address := None;
     User.date_of_birth := None |}.

Definition mk_student (k user : Z) (grade section : string) (parent : option Z)
  : Student.t :=
  {| Student.id := k; Student.user := user; Student.student_id := "S";
     Student.enrollment_date := 0; Student.grade := grade;
     Student.section := section; Student.parent := parent |}.

Definition mk_teacher (k user : Z) : Teacher.t :=
  {| Teacher.id := k; Teacher.user := user; Teacher.teacher_id := "T";
     Teacher.hire_date := 0; Teacher.qualifications := None |}.

Definition mk_parent (k user : Z) : Parent.t :=
  {| Parent.id := k; Parent.user := user; Parent.parent_id := "P";
     Parent.occupation := None; Parent.relationship_to_student := "mother" |}.

Definition mk_class (k : Z) (grade section : string) : Class.t :=
  {| Class.id := k; Class.grade := grade; Class.section := section;
     Class.academic_year := 1; Class.class_teacher := None |}.

Definition mk_timetable (k class_obj : Z) (day : string) (period : Z) : Timetable.t :=
  {| Timetable.id := k; Timetable.class_obj := class_obj; Timetable.day := day;
     Timetable.period := period; Timetable.subject := 1;
     Timetable.start_time := 900; Timetable.end_time := 945 |}.

Definition mk_content (title grade : string) (uploaded_by : Z) : Content.fields :=
  {| Content.title := title; Content.description := None;
     Content.content_type := "pdf"; Content.file := "content/notes.pdf";
     Content.subject := 1; Content.grade := grade; Content.chapter := None;
     Content.uploaded_by := uploaded_by; Content.is_homework := false |}.

Definition mk_attendance (k student date : Z) (status : string) : Attendance.t :=
  {| Attendance.id := k;
     Attendance.data :=
       {| Attendance.student := student; Attendance.date := date;
          Attendance.status := status; Attendance.marked_by := 1;
          Attendance.class_obj := 1 |} |}.

Definition mk_payment (k student : Z) (is_paid : bool) : FeePayment.t :=
  {| FeePayment.id := k; FeePayment.student := student;
     FeePayment.fee_structure := 1; FeePayment.amount_paid := 50000;
     FeePayment.payment_date := 20; FeePayment.payment_method := "cash";
     FeePayment.transaction_id := None; FeePayment.is_paid := is_paid |}.

Definition mk_announcement (k created : Z) (is_active : bool) : Announcement.t :=
  {| Announcement.id := k; Announcement.title := "Notice";
     Announcement.content := "";
     Announcement.created_by := 1; Announcement.created_date := created;
     Announcement.target_audience := "all"; Announcement.is_active := is_active |}.

Definition mk_submission (assessment student : Z) : Submission.fields :=
  {| Submission.assessment := assessment; Submission.student := student;
     Submission.marks_obtained := None; Submission.grade := None;
     Submission.feedback := None |}.

Definition admin := mk_user 1 "root" "admin".
Definition teacher_1 := mk_user 2 "tara" "teacher".
Definition teacher_2 := mk_user 3 "tom" "teacher".
Definition student_a_user := mk_user 4 "amy" "student".
Definition student_b_user := mk_user 5 "ben" "student".
Definition parent_user := mk_user 6 "pat" "parent".
(** Accounts whose role names a profile that was never created. *)
Definition teacher_without_profile := mk_user 7 "ted" "teacher".
Definition student_without_profile := mk_user 8 "sue" "student".
Definition parent_without_profile := mk_user 9 "pam" "parent".

Definition student_a := mk_student 1 4 "Grade 1" "A" (Some 1).
Definition student_b := mk_student 2 5 "Grade 2" "B" None.

Definition math : Subject.t :=
  {| Subject.id := 1; Subject.name := "Mathematics"; Subject.code := "M1";
     Subject.description := None; Subject.grade := "Grade 1" |}.

Definition quiz : Assessment.t :=
  {| Assessment.id := 1; Assessment.title := "Quiz"; Assessment.description := None;
     Assessment.assessment_type := "quiz"; Assessment.subject := 1;
     Assessment.class_obj := 1; Assessment.teacher := 1;
     Assessment.scheduled_date := 100; Assessment.duration_minutes := 60;
     Assessment.total_marks := 20; Assessment.created_date := 10 |}.

Definition notes : Content.t :=
  {| Content.id := 1; Content.data := mk_content "Fractions" "Grade 1" 2;
     Content.upload_date := 12 |}.

Definition school : DB :=
  {| users := [admin; teacher_1; teacher_2; student_a_user; student_b_user;
               parent_user; teacher_without_profile; student_without_profile;
               parent_without_profile];
     students := [student_a; student_b];
     teachers := [mk_teacher 1 2; mk_teacher 2 3];
     parents := [mk_parent 1 6];
     academic_years := [];
     classes := [mk_class 1 "Grade 1" "A"; mk_class 2 "Grade 2" "B";
                 mk_class 3 "Grade 1" "B"];
     subjects := [math];
     teacher_subjects := [(1, 1)];
     timetables := [mk_timetable 1 1 "monday" 1; mk_timetable 2 2 "monday" 1;
                    mk_timetable 3 3 "monday" 1; mk_timetable 4 1 "tuesday" 2];
     contents := [notes];
     assessments := [quiz];
     submissions := [];
     attendances :=
       [mk_attendance 1 1 1 "present"; mk_attendance 2 1 2 "present";
        mk_attendance 3 2 2 "absent";  mk_attendance 4 1 3 "absent";
        mk_attendance 5 1 4 "present"; mk_attendance 6 1 5 "present";
        mk_attendance 7 1 6 "late";    mk_attendance 8 1 7 "present";
        mk_attendance 9 2 7 "present"; mk_attendance 10 1 8 "present";
        mk_attendance 11 1 9 "present"; mk_attendance 12 1 10 "present"];
     fee_payments := [mk_payment 1 1 false; mk_payment 2 2 false];
     announcements :=
       [mk_announcement 1 10 true; mk_announcement 2 20 true;
        mk_announcement 3 30 true; mk_announcement 4 40 true;
        mk_announcement 5 50 true; mk_announcement 6 60 true] |}.

End Sample.

(* ================================================================== *)
(** ** The remaining viewsets *)

Module TeacherViewSet.
Definition get_queryset (db : DB) (user : User.t) : result (list Teacher.t) :=
  if String.eqb (User.role user) "teacher" then
    Ok (QuerySet.filter (fun t => Teacher.user t =? User.id user) (teachers db))
  else Ok (teachers db).
End TeacherViewSet.

Module ParentViewSet.
Definition get_queryset (db : DB) (user : User.t) : result (list Parent.t) :=
  if String.eqb (User.role user) "parent" then
    Ok (QuerySet.filter (fun p => Parent.user p =? User.id user) (parents db))
  else Ok (parents db).
End ParentViewSet.

(** The writable fields of an announcement ([created_date] is
    [auto_now_add]). *)
Module AnnouncementFields.
Record t : Type := {
  title : string;
  content : string;
  created_by : Z;
  target_audience : string;
  is_active : bool
}.
(** [{**validated_data, 'created_by': user}] *)
Definition with_created_by (d : t) (user : Z) : t :=
  {| title := title d; content := content d; created_by := user;
     target_audience := target_audience d; is_active := is_active d |}.
End AnnouncementFields.

Definition set_announcements (db : DB) (l : list Announcement.t) : DB :=
  {| users := users db; students := students db; teachers := teachers db;
     parents := parents db; academic_years := academic_years db;
     classes := classes db; subjects := subjects db;
     teacher_subjects := teacher_subjects db; timetables := timetables db;
     contents := contents db;
     assessments := assessments db; submissions := submissions db;
     attendances := attendances db; fee_payments := fee_payments db;
     announcements := l |}.

(** [Announcement.objects.create] on the fields [d]: [created_by] is a
    foreign key to the user table. *)
Definition Announcement_objects_create (now : Z) (d : AnnouncementFields.t)
  (db : DB) : result DB :=
  if negb (has_pk User.id (AnnouncementFields.created_by d) (users db))
  then Raise IntegrityError
  else
    let row :=
      {| Announcement.id := next_pk (map Announcement.id (announcements db));
         Announcement.title := AnnouncementFields.title d;
         Announcement.content := AnnouncementFields.content d;
         Announcement.created_by := AnnouncementFields.created_by d;
         Announcement.created_date := now;
         Announcement.target_audience := AnnouncementFields.target_audience d;
         Announcement.is_active := AnnouncementFields.is_active d |} in
    Ok (set_announcements db (announcements db ++ [row])).

Module AnnouncementViewSet.
(** [Q(target_audience='all') | Q(target_audience=user.role + 's')] *)
Definition for_audience (user : User.t) (a : Announcement.t) : bool :=
  String.eqb (Announcement.target_audience a) "all"
  || String.eqb (Announcement.target_audience a)
                (String.append (User.role user) "s").

Definition get_queryset (db : DB) (user : User.t) : list Announcement.t :=
  let queryset := QuerySet.filter Announcement.is_active (announcements db) in
  if negb (String.eqb (User.role user) "admin") then
    QuerySet.filter (for_audience user) queryset
  else queryset.

Definition perform_create (now : Z) (db : DB) (user : User.t)
  (validated_data : AnnouncementFields.t) : result DB :=
  Announcement_objects_create now
    (AnnouncementFields.with_created_by validated_data (User.id user)) db.
End AnnouncementViewSet.

Module Message.
Record fields : Type := {
  sender : Z;
  receiver : Z;
  subject : string;
  content : string;
  is_read : bool
}.
(** A stored row: [sent_date] is [auto_now_add]. *)
Record t : Type := {
  id : Z;
  data : fields;
  sent_date : Z
}.
(** [{**validated_data, 'sender': user}] *)
Definition with_sender (d : fields) (user : Z) : fields :=
  {| sender := user; receiver := receiver d; subject := subject d;
     content := content d; is_read := is_read d |}.
End Message.

Module Notification.
Record t : Type := {
  id : Z;
  user : Z;
  title : string;
  message : string;
  notification_type : string;
  created_date : Z;
  is_read : bool;
  sent_via_email : bool;
  sent_via_sms : bool
}.
End Notification.

(** [Message.objects.create] on the fields [d], the message table being
    [messages]: [sender] and [receiver] are foreign keys to the user table. *)
Definition Message_objects_create (now : Z) (d : Message.fields) (db : DB)
  (messages : list Message.t) : result (list Message.t) :=
  if negb (has_pk User.id (Message.sender d) (users db)
           && has_pk User.id (Message.receiver d) (users db))
  then Raise IntegrityError
  else
    let row := {| Message.id := next_pk (map Message.id messages);
                  Message.data := d;
                  Message.sent_date := now |} in
    Ok (messages ++ [row]).

(** The message and the notification tables are kept beside [DB]; the
    viewsets take the table they read or write as [messages] and
    [notifications]. *)
Module MessageViewSet.
(** [Q(sender=user) | Q(receiver=user)] (an OR of two conditions: it decides
    which messages are listed, not their order). *)
Definition involves (user : User.t) (m : Message.t) : bool :=
  (Message.sender (Message.data m) =? User.id user)
  || (Message.receiver (Message.data m) =? User.id user).

Definition get_queryset (messages : list Message.t) (user : User.t)
  : list Message.t :=
  QuerySet.filter (involves user) messages.

Definition perform_create (now : Z) (db : DB) (messages : list Message.t)
  (user : User.t) (validated_data : Message.fields) : result (list Message.t) :=
  Message_objects_create now (Message.with_sender validated_data (User.id user))
    db messages.
End MessageViewSet.

Module NotificationViewSet.
Definition get_queryset (notifications : list Notification.t) (user : User.t)
  : list Notification.t :=
  QuerySet.filter (fun n => Notification.user n =? User.id user) notifications.
End NotificationViewSet.

(* ================================================================== *)
(** ** The template dashboard ([dashboard])

    The context handed to the template: [dashboard_data] starts as the empty
    dictionary and is replaced in the branch of the caller's role; a missing
    profile is passed over ([except ...DoesNotExist: pass]). *)

Inductive dashboard_data : Type :=
| NoData
| AdminData (total_students total_teachers total_parents total_classes : Z)
| TeacherData (d : teacher_data)
| StudentData (d : student_data)
| ParentData (d : parent_data).

Definition dashboard (now : Z) (db : DB) (user : User.t) : result dashboard_data :=
  if String.eqb (User.role user) "admin" then
    Ok (AdminData (QuerySet.count (students db)) (QuerySet.count (teachers db))
                  (QuerySet.count (parents db)) (QuerySet.count (classes db)))
  else if String.eqb (User.role user) "teacher" then
    try_except_DoesNotExist
      (teacher <- Teacher_objects_get db user ;;
       Ok (TeacherData
             {| teacher_info := teacher;
                assigned_subjects := Teacher_subjects_all db teacher;
                teacher_upcoming_assessments :=
                  QuerySet.slice 5
                    (QuerySet.filter
                       (fun a => (Assessment.teacher a =? Teacher.id teacher)
                                 && (now <=? Assessment.scheduled_date a))
                       (assessments db));
                teacher_recent_content :=
                  QuerySet.slice 5
                    (QuerySet.filter
                       (fun c => Content.uploaded_by (Content.data c) =? Teacher.id teacher)
                       (contents db)) |}))
      TeacherModel
      (Ok NoData)
  else if String.eqb (User.role user) "student" then
    try_except_DoesNotExist
      (student <- Student_objects_get db user ;;
       Ok (StudentData
             {| student_info := student;
                timetable :=
                  QuerySet.filter
                    (fun t => class_matches db (Timetable.class_obj t)
                                (Student.grade student) (Student.section student))
                    (timetables db);
                upcoming_assessments :=
                  QuerySet.slice 5
                    (QuerySet.filter
                       (fun a => class_matches db (Assessment.class_obj a)
                                   (Student.grade student) (Student.section student)
                                 && (now <=? Assessment.scheduled_date a))
                       (assessments db));
                recent_content :=
                  QuerySet.slice 5
                    (QuerySet.filter
                       (fun c => String.eqb (Content.grade (Content.data c))
                                   (Student.grade student))
                       (contents db));
                attendance_percentage :=
                  calculate_attendance_percentage db student |}))
      StudentModel
      (Ok NoData)
  else if String.eqb (User.role user) "parent" then
    try_except_DoesNotExist
      (parent <- Parent_objects_get db user ;;
       let children := QuerySet.filter (has_parent parent) (students db) in
       Ok (ParentData
             {| parent_info := parent;
                children := children;
                children_attendance :=
                  map (fun child => (child, calculate_attendance_percentage db child))
                      children;
                unpaid_fees :=
                  QuerySet.filter
                    (fun p => student_in children (FeePayment.student p)
                              && negb (FeePayment.is_paid p))
                    (fee_payments db) |}))
      ParentModel
      (Ok NoData)
  else Ok NoData.

(* ================================================================== *)
(** ** Login ([LoginSerializer.validate], [login_view])

    [authenticate] and the token pair of [RefreshToken.for_user] belong to
    the framework, as does the validation of the two [CharField]s, which
    yields the user name and the password or fails; they are parameters. *)

Section Login.
Context {Payload Tokens : Type}.
Variable run_fields : Payload -> option (string * string).
Variable authenticate : string -> string -> option User.t.
Variable for_user : User.t -> Tokens.

(** A string is truthy when it is not empty. *)
Definition truthy (s : string) : bool := negb (String.eqb s "").

(** The validated user, or the message of the [ValidationError]. *)
Definition LoginSerializer_validate (username password : string)
  : User.t + string :=
  if truthy username && truthy password then
    match authenticate username password with
    | Some user =>
        if User.is_active user then inl user
        else inr "User account is disabled."
    | None => inr "Unable to log in with provided credentials."
    end
  else inr "Must include 'username' and 'password'.".

(** What [login_view] answers: the user with a token pair, or the errors. *)
Inductive login_body : Type :=
| LoggedIn (user : User.t) (tokens : Tokens)
| LoginErrors (non_field_error : option string).

Definition login_view (payload : Payload) : login_body * Z :=
  match run_fields payload with
  | None => (LoginErrors None, 400)
  | Some (username, password) =>
      match LoginSerializer_validate username password with
      | inl user => (LoggedIn user (for_user user), 200)
      | inr msg => (LoginErrors (Some msg), 400)
      end
  end.
End Login.

(* ================================================================== *)
(** ** Notions for the further properties *)

(** Each user has at most one profile of each kind ([OneToOneField]). *)
Definition one_profile_per_user (db : DB) : Prop :=
  NoDup (map Student.user (students db))
  /\ NoDup (map Teacher.user (teachers db))
  /\ NoDup (map Parent.user (parents db)).

(** No two stored attendance rows share (student, date). *)
Definition attendance_key (a : Attendance.t) : Z * Z :=
  (Attendance.student (Attendance.data a), Attendance.date (Attendance.data a)).

Definition attendances_unique (db : DB) : Prop :=
  NoDup (map attendance_key (attendances db)).

(** A small message table over the users of [Sample.school]. *)
Module Mailbox.
Definition mk_message (k sender receiver : Z) (subject : string) : Message.t :=
  {| Message.id := k;
     Message.data :=
       {| Message.sender := sender; Message.receiver := receiver;
          Message.subject := subject; Message.content := "";
          Message.is_read := false |};
     Message.sent_date := 5 |}.

Definition mk_notification (k user : Z) : Notification.t :=
  {| Notification.id := k; Notification.user := user;
     Notification.title := "Reminder"; Notification.message := "";
     Notification.notification_type := "fee";
     Notification.created_date := 5; Notification.is_read := false;
     Notification.sent_via_email := false; Notification.sent_via_sms := false |}.

Definition messages : list Message.t :=
  [mk_message 1 2 4 "Homework"; mk_message 2 6 2 "Absence";
   mk_message 3 3 5 "Quiz"].

Definition notifications : list Notification.t :=
  [mk_notification 1 4; mk_notification 2 6; mk_notification 3 4].

Definition draft (sender receiver : Z) : Message.fields :=
  {| Message.sender := sender; Message.receiver := receiver;
     Message.subject := "Meeting"; Message.content := "";
     Message.is_read := false |}.

Definition notice (audience : string) (is_active : bool) : AnnouncementFields.t :=
  {| AnnouncementFields.title := "Sports day"; AnnouncementFields.content := "";
     AnnouncementFields.created_by := 1;
     AnnouncementFields.target_audience := audience;
     AnnouncementFields.is_active := is_active |}.
End Mailbox.

(* ================================================================== *)
(** * Properties *)

(** ** Querysets and exceptions *)

Lemma filter_nil_of_existsb {A : Type} (p : A -> bool) (l : list A) :
  existsb p l = false -> List.filter p l = [].
Proof.
  induction l as [|x l IH]; simpl; [reflexivity|].
  destruct (p x); simpl; [discriminate|exact IH].
Qed.

Lemma filter_and {A : Type} (p q : A -> bool) (l : list A) :
  List.filter (fun x => p x && q x) l = List.filter q (List.filter p l).
Proof.
  induction l as [|x l IH]; simpl; [reflexivity|].
  destruct (p x); simpl; [destruct (q x)|]; now rewrite IH.
Qed.

Lemma get_missing {A : Type} (m : model) (p : A -> bool) (qs : list A) :
  existsb p qs = false -> QuerySet.get m p qs = Raise (DoesNotExist m).
Proof.
  intros H. unfold QuerySet.get. now rewrite (filter_nil_of_existsb p qs H).
Qed.

Lemma get_found {A : Type} (m : model) (p : A -> bool) (qs : list A) (r : A) :
  QuerySet.get m p qs = Ok r -> In r qs /\ p r = true.
Proof.
  unfold QuerySet.get. intros H.
  destruct (List.filter p qs) as [|x [|y l]] eqn:E; try discriminate.
  injection H as ->. apply filter_In. rewrite E. now left.
Qed.

Lemma has_pk_of_In {A : Type} (pk : A -> Z) (r : A) (rows : list A) :
  In r rows -> has_pk pk (pk r) rows = true.
Proof.
  intros H. unfold has_pk. apply existsb_exists. exists r.
  split; [exact H|apply Z.eqb_refl].
Qed.

Lemma role_is_not (user : User.t) (r : string) :
  String.eqb (User.role user) r = false <-> User.role user <> r.
Proof. apply String.eqb_neq. Qed.

(** ** Attendance percentage *)

Lemma count_attendance (db : DB) (student : Student.t) :
  QuerySet.count
    (QuerySet.filter
       (fun a => Attendance.student (Attendance.data a) =? Student.id student)
       (attendances db))
  = Z.of_nat (List.length (attendance_of db student)).
Proof. reflexivity. Qed.

Lemma count_present (db : DB) (student : Student.t) :
  QuerySet.count
    (QuerySet.filter
       (fun a => (Attendance.student (Attendance.data a) =? Student.id student)
                 && String.eqb (Attendance.status (Attendance.data a)) "present")
       (attendances db))
  = Z.of_nat (List.length (List.filter is_present (attendance_of db student))).
Proof.
  unfold QuerySet.count, QuerySet.filter, attendance_of.
  now rewrite filter_and.
Qed.

(** The function computes what the specification words. *)
Lemma calculate_attendance_percentage_refines (db : DB) (student : Student.t) :
  calculate_attendance_percentage db student
  = attendance_percentage_spec db student.
Proof.
  unfold calculate_attendance_percentage, attendance_percentage_spec.
  rewrite count_attendance, count_present.
  destruct (List.length (attendance_of db student)) as [|n] eqn:E.
  - reflexivity.
  - replace (Z.of_nat (S n) =? 0) with false; [reflexivity|].
    symmetry. apply Z.eqb_neq. lia.
Qed.

Lemma In_upto (n : nat) (z : Z) : 0 <= z < Z.of_nat n -> In z (upto n).
Proof.
  intros H. unfold upto. apply in_map_iff. exists (Z.to_nat z).
  split; [lia|]. apply in_seq. lia.
Qed.

Lemma float_eqb_eq (x y : Py.float) : Py.float_eqb x y = true -> x = y.
Proof.
  destruct x as [a|a| |a m e], y as [b|b| |b m' e']; simpl; try discriminate.
  - intros H. apply Bool.eqb_prop in H. now subst.
  - intros H. apply Bool.eqb_prop in H. now subst.
  - reflexivity.
  - intros H. apply andb_prop in H as [H He]. apply andb_prop in H as [Hs Hm].
    apply Bool.eqb_prop in Hs. apply Pos.eqb_eq in Hm. apply Z.eqb_eq in He.
    now subst.
Qed.

Lemma percent_check_upto_spec (n : nat) (total present : Z) :
  percent_check_upto n = true ->
  0 < total <= Z.of_nat n -> 0 <= present <= total ->
  percent_check total present = true.
Proof.
  unfold percent_check_upto. intros Hall Ht Hp.
  rewrite forallb_forall in Hall.
  assert (Hin : In total (map Z.succ (upto n))).
  { apply in_map_iff. exists (Z.pred total). split; [lia|].
    apply In_upto. lia. }
  specialize (Hall total Hin). rewrite forallb_forall in Hall.
  apply Hall, In_upto. lia.
Qed.

Lemma percent_check_upto_100 : percent_check_upto 100 = true.
Proof. vm_compute. reflexivity. Qed.

(** What "rounded to 2 decimal places" comes to in exact arithmetic, for up
    to 100 attendance rows: the float returned is the binary64 nearest to
    [n / 100], where [n / 100] is a two-decimal number nearest to the exact
    quotient [100 * present / total]. *)
Lemma percent_2dp_nearest (total present : Z) :
  0 < total <= 100 -> 0 <= present <= total ->
  exists n,
    2 * Z.abs (10000 * present - n * total) <= total
    /\ percent_2dp present total = Py.truediv n 100.
Proof.
  intros Ht Hp.
  assert (Hc : percent_check total present = true).
  { apply (percent_check_upto_spec 100); [exact percent_check_upto_100| |exact Hp].
    change (Z.of_nat 100) with 100. exact Ht. }
  unfold percent_check in Hc.
  apply andb_prop in Hc as [Hnear Heq].
  exists (percent_hundredths present total). split.
  - apply Z.leb_le. exact Hnear.
  - apply float_eqb_eq. exact Heq.
Qed.

(** C1. For every student, [calculate_attendance_percentage] is the integer
    0 when the student has no attendance rows; otherwise it is the number of
    the student's rows marked 'present' divided by the number of the
    student's rows, times 100, rounded to two decimals.  A student with 10
    rows of which 8 are 'present' gets 80.0.  For up to 100 rows the rounding
    is spelled out in exact arithmetic: the result is the float nearest to
    [n / 100], a two-decimal number nearest to [100 * present / total]. *)
Theorem attendance_percentage_correct (db : DB) (student : Student.t) :
  let total := List.length (attendance_of db student) in
  let present := List.length (List.filter is_present (attendance_of db student)) in
  (total = 0%nat ->
   calculate_attendance_percentage db student = Py.Int 0)
  /\ (total <> 0%nat ->
      calculate_attendance_percentage db student
      = Py.Float (percent_2dp (Z.of_nat present) (Z.of_nat total)))
  /\ (total = 10%nat -> present = 8%nat ->
      calculate_attendance_percentage db student
      = Py.Float (Py.float_of_int 80))
  /\ (total <> 0%nat -> (total <= 100)%nat ->
      exists n,
        2 * Z.abs (10000 * Z.of_nat present - n * Z.of_nat total) <= Z.of_nat total
        /\ calculate_attendance_percentage db student
           = Py.Float (Py.truediv n 100)).
Proof.
  intros total present.
  assert (Hle : (present <= total)%nat) by apply filter_length_le.
  rewrite calculate_attendance_percentage_refines.
  unfold attendance_percentage_spec. fold total. fold present.
  split; [|split; [|split]].
  - intros ->. reflexivity.
  - intros H. destruct total; [contradiction|reflexivity].
  - intros -> ->. vm_compute. reflexivity.
  - intros H0 H100.
    destruct (percent_2dp_nearest (Z.of_nat total) (Z.of_nat present))
      as [n [Hn Heq]]; [lia|lia|].
    exists n. split; [exact Hn|].
    destruct total; [contradiction|]. now rewrite Heq.
Qed.

Lemma attendance_percentage_correct_witness :
  calculate_attendance_percentage Sample.school Sample.student_a
  = Py.Float (Py.float_of_int 80)
  /\ calculate_attendance_percentage empty_db Sample.student_a = Py.Int 0.
Proof.
  split.
  - apply (attendance_percentage_correct Sample.school Sample.student_a);
      reflexivity.
  - apply (attendance_percentage_correct empty_db Sample.student_a).
    reflexivity.
Defined.

(** Python's arithmetic on a few inputs: 0.8, 80.0, 33.33, 66.67 and 0.01 as
    binary64 data (mantissa and exponent). *)
Example truediv_8_10 :
  Py.truediv 8 10 = S754_finite false 7205759403792794 (-53).
Proof. reflexivity. Qed.

Example float_80 :
  Py.float_of_int 80 = S754_finite false (80 * 2 ^ 46) (-46).
Proof. reflexivity. Qed.

Example percent_1_of_3 : percent_2dp 1 3 = Py.truediv 3333 100.
Proof. vm_compute. reflexivity. Qed.

Example percent_2_of_3 : percent_2dp 2 3 = Py.truediv 6667 100.
Proof. vm_compute. reflexivity. Qed.

Example percent_1_of_20000 : percent_2dp 1 20000 = Py.truediv 1 100.
Proof. vm_compute. reflexivity. Qed.

(** ** Submissions are unique per (assessment, student) *)

Lemma same_submission_key_iff (d : Submission.fields) (s : Submission.t) :
  same_submission_key d s = true
  <-> submission_key s = (Submission.assessment d, Submission.student d).
Proof.
  unfold same_submission_key, submission_key. rewrite andb_true_iff, !Z.eqb_eq.
  split; [intros [-> ->]; reflexivity|intros [= -> ->]; now split].
Qed.

Lemma same_submission_key_ext (d d' : Submission.fields) (s : Submission.t) :
  Submission.assessment d' = Submission.assessment d ->
  Submission.student d' = Submission.student d ->
  same_submission_key d' s = same_submission_key d s.
Proof. unfold same_submission_key. now intros -> ->. Qed.

(** What a successful [create] did: the key was free, both foreign keys
    resolve, and one row was appended. *)
Lemma Submission_objects_create_Ok (now : Z) (d : Submission.fields) (db db' : DB) :
  Submission_objects_create now d db = Ok db' ->
  existsb (same_submission_key d) (submissions db) = false
  /\ exists row,
       Submission.data row = d
       /\ Submission.submitted_at row = now
       /\ db' = set_submissions db (submissions db ++ [row]).
Proof.
  unfold Submission_objects_create.
  destruct (existsb (same_submission_key d) (submissions db)); [discriminate|].
  destruct (negb _); [discriminate|].
  intros [= <-]. split; [reflexivity|].
  exists {| Submission.id := next_pk (map Submission.id (submissions db));
            Submission.data := d; Submission.submitted_at := now |}.
  repeat split.
Qed.

Lemma submissions_unique_empty : submissions_unique empty_db.
Proof. constructor. Qed.

Lemma NoDup_snoc {A : Type} (l : list A) (x : A) :
  NoDup l -> ~ In x l -> NoDup (l ++ [x]).
Proof.
  induction l as [|y l IH]; simpl; intros Hnd Hx.
  - constructor; [easy|constructor].
  - inversion Hnd as [|? ? Hy Hl]; subst. constructor.
    + rewrite in_app_iff. simpl. intros [H|[H|[]]]; [easy|]. apply Hx. now left.
    + apply IH; [exact Hl|]. intros H. apply Hx. now right.
Qed.

(** A second [create] for a key that a successful [create] just stored. *)
Lemma Submission_objects_create_twice
  (now now' : Z) (d d' : Submission.fields) (db db1 : DB) :
  Submission_objects_create now d db = Ok db1 ->
  Submission.assessment d' = Submission.assessment d ->
  Submission.student d' = Submission.student d ->
  Submission_objects_create now' d' db1 = Raise IntegrityError.
Proof.
  intros H Ha Hs.
  apply Submission_objects_create_Ok in H as [_ [row [Hd [_ ->]]]].
  unfold Submission_objects_create. simpl. rewrite existsb_app. simpl.
  rewrite (same_submission_key_ext d d' row Ha Hs).
  replace (same_submission_key d row) with true; [now rewrite orb_true_r|].
  symmetry. apply same_submission_key_iff. unfold submission_key. now rewrite Hd.
Qed.

(** C2. At most one submission per (assessment, student): once a create has
    succeeded, exactly one stored row carries that pair, every further create
    for the same pair raises [IntegrityError] and leaves the stored
    submissions as they were, and a table without duplicates stays so. *)
Theorem submission_unique_per_assessment_student
  (now : Z) (d : Submission.fields) (db db1 : DB) :
  Submission_objects_create now d db = Ok db1 ->
  submission_count d db1 = 1%nat
  /\ (forall now' d',
        Submission.assessment d' = Submission.assessment d ->
        Submission.student d' = Submission.student d ->
        Submission_objects_create now' d' db1 = Raise IntegrityError
        /\ commit db1 (Submission_objects_create now' d' db1) = db1)
  /\ (submissions_unique db -> submissions_unique db1).
Proof.
  intros H. split; [|split].
  - apply Submission_objects_create_Ok in H as [Hfree [row [Hd [_ ->]]]].
    unfold submission_count. simpl. rewrite filter_app. simpl.
    rewrite (filter_nil_of_existsb _ _ Hfree).
    replace (same_submission_key d row) with true; [reflexivity|].
    symmetry. apply same_submission_key_iff. unfold submission_key. now rewrite Hd.
  - intros now' d' Ha Hs.
    rewrite (Submission_objects_create_twice now now' d d' db db1 H Ha Hs).
    split; reflexivity.
  - apply Submission_objects_create_Ok in H as [Hfree [row [Hd [_ ->]]]].
    unfold submissions_unique. simpl. intros Hnd.
    rewrite map_app. simpl. apply NoDup_snoc; [exact Hnd|].
    intros Hin. apply in_map_iff in Hin as [s [Hk Hs]].
    assert (Hx : existsb (same_submission_key d) (submissions db) = true).
    { apply existsb_exists. exists s. split; [exact Hs|].
      apply same_submission_key_iff. rewrite Hk. unfold submission_key.
      now rewrite Hd. }
    congruence.
Qed.

Lemma submission_unique_per_assessment_student_witness :
  let first := Sample.mk_submission 1 1 in
  let db1 := commit Sample.school (Submission_objects_create 50 first Sample.school) in
  submission_count first db1 = 1%nat
  /\ Submission_objects_create 51 (Sample.mk_submission 1 1) db1 = Raise IntegrityError.
Proof.
  intros first db1.
  assert (H : Submission_objects_create 50 first Sample.school = Ok db1)
    by reflexivity.
  destruct (submission_unique_per_assessment_student 50 first Sample.school db1 H)
    as [Hone [Hagain _]].
  split; [exact Hone|].
  apply (Hagain 51 (Sample.mk_submission 1 1)); reflexivity.
Defined.

(** Every database built from the empty one by creates has no two
    submissions with the same (assessment, student). *)
Lemma submissions_unique_after_creates (ds : list (Z * Submission.fields)) :
  submissions_unique
    (fold_left (fun db nd => commit db (Submission_objects_create (fst nd) (snd nd) db))
               ds empty_db).
Proof.
  assert (Hgen : forall db, submissions_unique db ->
            submissions_unique
              (fold_left
                 (fun db nd => commit db (Submission_objects_create (fst nd) (snd nd) db))
                 ds db)).
  { induction ds as [|[now d] ds IH]; simpl; intros db Hdb; [exact Hdb|].
    apply IH.
    destruct (Submission_objects_create now d db) as [db1|e] eqn:E; simpl;
      [|exact Hdb].
    apply Submission_objects_create_Ok in E as [Hfree [row [Hd [_ ->]]]].
    unfold submissions_unique. simpl. rewrite map_app. simpl.
    apply NoDup_snoc; [exact Hdb|].
    intros Hin. apply in_map_iff in Hin as [s [Hk Hs]].
    assert (Hx : existsb (same_submission_key d) (submissions db) = true).
    { apply existsb_exists. exists s. split; [exact Hs|].
      apply same_submission_key_iff. rewrite Hk. unfold submission_key.
      now rewrite Hd. }
    congruence. }
  apply Hgen, submissions_unique_empty.
Qed.

(** The same through the view: a student who has submitted cannot submit to
    that assessment again, whichever student the second payload names. *)
Lemma SubmissionViewSet_perform_create_twice
  (now now' : Z) (d d' : Submission.fields) (db db1 : DB) (user : User.t) :
  User.role user = "student" ->
  SubmissionViewSet.perform_create now db user d = Ok db1 ->
  Submission.assessment d' = Submission.assessment d ->
  SubmissionViewSet.perform_create now' db1 user d' = Raise IntegrityError.
Proof.
  intros Hrole. unfold SubmissionViewSet.perform_create. rewrite Hrole. simpl.
  destruct (Student_objects_get db user) as [student|e] eqn:Hget; simpl;
    [|discriminate].
  intros H Ha.
  assert (Hsame : Student_objects_get db1 user = Ok student).
  { apply Submission_objects_create_Ok in H as [_ [row [_ [_ ->]]]]. exact Hget. }
  rewrite Hsame. simpl.
  apply (Submission_objects_create_twice now now' _ _ db db1 H); [exact Ha|reflexivity].
Qed.

(** ** Role-scoped listings *)

Lemma class_matches_iff (db : DB) (k : Z) (g s : string) :
  class_matches db k g s = true
  <-> exists c, In c (classes db) /\ Class.id c = k
                /\ Class.grade c = g /\ Class.section c = s.
Proof.
  unfold class_matches. rewrite existsb_exists. split.
  - intros [c [Hin H]]. apply andb_prop in H as [H Hs]. apply andb_prop in H as [Hk Hg].
    exists c. rewrite Z.eqb_eq in Hk. rewrite String.eqb_eq in Hg, Hs. auto.
  - intros [c [Hin [Hk [Hg Hs]]]]. exists c. split; [exact Hin|].
    rewrite !andb_true_iff, Z.eqb_eq, !String.eqb_eq. auto.
Qed.

Lemma has_parent_iff (p : Parent.t) (s : Student.t) :
  has_parent p s = true <-> Student.parent s = Some (Parent.id p).
Proof.
  unfold has_parent. destruct (Student.parent s) as [k|].
  - rewrite Z.eqb_eq. split; [now intros ->|now intros [= ->]].
  - split; discriminate.
Qed.

Lemma student_has_parent_iff (db : DB) (k : Z) (p : Parent.t) :
  student_has_parent db k p = true
  <-> exists s, In s (students db) /\ Student.id s = k
                /\ Student.parent s = Some (Parent.id p).
Proof.
  unfold student_has_parent. rewrite existsb_exists. split.
  - intros [s [Hin H]]. apply andb_prop in H as [Hk Hp].
    exists s. rewrite Z.eqb_eq in Hk. rewrite has_parent_iff in Hp. auto.
  - intros [s [Hin [Hk Hp]]]. exists s. split; [exact Hin|].
    rewrite andb_true_iff, Z.eqb_eq, has_parent_iff. auto.
Qed.

(** Primary keys identify rows. *)
Lemma pk_injective {A : Type} (pk : A -> Z) (rows : list A) (x y : A) :
  NoDup (map pk rows) -> In x rows -> In y rows -> pk x = pk y -> x = y.
Proof.
  induction rows as [|r rows IH]; simpl; intros Hnd Hx Hy E; [contradiction|].
  inversion Hnd as [|? ? Hr Hrows]; subst.
  destruct Hx as [->|Hx], Hy as [->|Hy]; try reflexivity.
  - exfalso. apply Hr. rewrite E. now apply in_map.
  - exfalso. apply Hr. rewrite <- E. now apply in_map.
  - now apply IH.
Qed.

(** C3. A caller with role 'student' who has a Student profile lists exactly
    the timetable rows whose class has the student's grade and section; as
    class keys are unique, no returned row belongs to a class with another
    grade or section. *)
Theorem student_timetable_scoped (db : DB) (user : User.t) (student : Student.t) :
  User.role user = "student" ->
  Student_objects_get db user = Ok student ->
  exists rows,
    TimetableViewSet.get_queryset db user = Ok rows
    /\ (forall t,
          In t rows <->
          In t (timetables db)
          /\ exists c, In c (classes db) /\ Class.id c = Timetable.class_obj t
                       /\ Class.grade c = Student.grade student
                       /\ Class.section c = Student.section student)
    /\ (NoDup (map Class.id (classes db)) ->
        forall t c,
          In t rows -> In c (classes db) -> Class.id c = Timetable.class_obj t ->
          Class.grade c = Student.grade student
          /\ Class.section c = Student.section student).
Proof.
  intros Hrole Hget. unfold TimetableViewSet.get_queryset.
  rewrite Hrole, Hget. simpl. eexists. split; [reflexivity|]. split.
  - intros t. unfold QuerySet.filter. rewrite filter_In, class_matches_iff.
    reflexivity.
  - intros Hpk t c Ht Hc Hk. unfold QuerySet.filter in Ht.
    apply filter_In in Ht as [_ Hm].
    apply class_matches_iff in Hm as [c' [Hc' [Hk' [Hg Hs]]]].
    assert (c = c') as -> by (apply (pk_injective Class.id (classes db)); congruence).
    now split.
Qed.

Lemma student_timetable_scoped_witness :
  exists rows,
    TimetableViewSet.get_queryset Sample.school Sample.student_a_user = Ok rows
    /\ (forall t,
          In t rows <->
          In t (timetables Sample.school)
          /\ exists c, In c (classes Sample.school)
                       /\ Class.id c = Timetable.class_obj t
                       /\ Class.grade c = "Grade 1"
                       /\ Class.section c = "A")
    /\ (forall t c,
          In t rows -> In c (classes Sample.school) ->
          Class.id c = Timetable.class_obj t ->
          Class.grade c = "Grade 1" /\ Class.section c = "A").
Proof.
  destruct (student_timetable_scoped Sample.school Sample.student_a_user
              Sample.student_a eq_refl eq_refl) as [rows [Hrows [Hiff Hclass]]].
  exists rows. split; [exact Hrows|]. split; [exact Hiff|].
  apply Hclass. simpl.
  repeat (constructor; [simpl; intuition discriminate|]). constructor.
Defined.

(** C4. A caller with role 'parent' who has a Parent profile lists exactly
    the fee payments of the students whose [parent] is that profile; as
    student keys are unique, no returned payment is for a student with
    another parent or with none. *)
Theorem parent_fee_payments_scoped (db : DB) (user : User.t) (parent : Parent.t) :
  User.role user = "parent" ->
  Parent_objects_get db user = Ok parent ->
  exists rows,
    FeePaymentViewSet.get_queryset db user = Ok rows
    /\ (forall p,
          In p rows <->
          In p (fee_payments db)
          /\ exists s, In s (students db) /\ Student.id s = FeePayment.student p
                       /\ Student.parent s = Some (Parent.id parent))
    /\ (NoDup (map Student.id (students db)) ->
        forall p s,
          In p rows -> In s (students db) -> Student.id s = FeePayment.student p ->
          Student.parent s = Some (Parent.id parent)).
Proof.
  intros Hrole Hget. unfold FeePaymentViewSet.get_queryset.
  rewrite Hrole, Hget. simpl. eexists. split; [reflexivity|]. split.
  - intros p. unfold QuerySet.filter. rewrite filter_In, student_has_parent_iff.
    reflexivity.
  - intros Hpk p s Hp Hs Hk. unfold QuerySet.filter in Hp.
    apply filter_In in Hp as [_ Hm].
    apply student_has_parent_iff in Hm as [s' [Hs' [Hk' Hpar]]].
    assert (s = s') as -> by (apply (pk_injective Student.id (students db)); congruence).
    exact Hpar.
Qed.

Lemma parent_fee_payments_scoped_witness :
  exists rows,
    FeePaymentViewSet.get_queryset Sample.school Sample.parent_user = Ok rows
    /\ (forall p,
          In p rows <->
          In p (fee_payments Sample.school)
          /\ exists s, In s (students Sample.school)
                       /\ Student.id s = FeePayment.student p
                       /\ Student.parent s = Some 1)
    /\ (forall p s,
          In p rows -> In s (students Sample.school) ->
          Student.id s = FeePayment.student p ->
          Student.parent s = Some 1).
Proof.
  destruct (parent_fee_payments_scoped Sample.school Sample.parent_user
              (Sample.mk_parent 1 6) eq_refl eq_refl) as [rows [Hrows [Hiff Hchild]]].
  exists rows. split; [exact Hrows|]. split; [exact Hiff|].
  apply Hchild. simpl.
  repeat (constructor; [simpl; intuition discriminate|]). constructor.
Defined.

Example student_a_timetable :
  option_map (map Timetable.id)
    (match TimetableViewSet.get_queryset Sample.school Sample.student_a_user with
     | Ok rows => Some rows
     | Raise _ => None
     end) = Some [1; 4].
Proof. reflexivity. Qed.

Example parent_fee_payments :
  FeePaymentViewSet.get_queryset Sample.school Sample.parent_user
  = Ok [Sample.mk_payment 1 1 false].
Proof. reflexivity. Qed.

(** ** Creating content *)

(** What a successful [Content.objects.create] did. *)
Lemma Content_objects_create_Ok (now : Z) (d : Content.fields) (db db' : DB) :
  Content_objects_create now d db = Ok db' ->
  exists row,
    Content.data row = d
    /\ Content.upload_date row = now
    /\ db' = set_contents db (contents db ++ [row]).
Proof.
  unfold Content_objects_create. destruct (negb _); [discriminate|].
  intros [= <-].
  exists {| Content.id := next_pk (map Content.id (contents db));
            Content.data := d; Content.upload_date := now |}.
  repeat split.
Qed.

(** [perform_create] for a teacher: the row saved carries the caller's own
    profile, whatever [uploaded_by] the validated fields held. *)
Lemma ContentViewSet_perform_create_teacher
  (now : Z) (db db' : DB) (user : User.t) (d : Content.fields) :
  User.role user = "teacher" ->
  ContentViewSet.perform_create now db user d = Ok db' ->
  exists teacher row,
    Teacher_objects_get db user = Ok teacher
    /\ Content.data row = Content.with_uploaded_by d (Teacher.id teacher)
    /\ Content.uploaded_by (Content.data row) = Teacher.id teacher
    /\ db' = set_contents db (contents db ++ [row]).
Proof.
  intros Hrole. unfold ContentViewSet.perform_create. rewrite Hrole. simpl.
  destruct (Teacher_objects_get db user) as [teacher|e]; simpl; [|discriminate].
  intros H. apply Content_objects_create_Ok in H as [row [Hd [_ ->]]].
  exists teacher, row. rewrite Hd. repeat split.
Qed.

(** A teacher with a profile does create the row when the subject exists. *)
Lemma ContentViewSet_perform_create_succeeds
  (now : Z) (db : DB) (user : User.t) (teacher : Teacher.t) (d : Content.fields) :
  User.role user = "teacher" ->
  Teacher_objects_get db user = Ok teacher ->
  has_pk Subject.id (Content.subject d) (subjects db) = true ->
  exists db', ContentViewSet.perform_create now db user d = Ok db'.
Proof.
  intros Hrole Hget Hsubject. unfold ContentViewSet.perform_create.
  rewrite Hrole, Hget. simpl. unfold Content_objects_create. simpl.
  apply get_found in Hget as [Hin _].
  rewrite Hsubject, (has_pk_of_In Teacher.id teacher _ Hin). simpl.
  eexists. reflexivity.
Qed.

(** C5. Whatever payload a caller with role 'teacher' sends to the create
    endpoint of Content, the row that gets created has [uploaded_by] equal to
    the caller's own Teacher profile (the Teacher row of that user), whatever
    [uploaded_by] the payload supplied; the rows stored before are kept. *)
Theorem content_create_forces_uploaded_by
  (Payload : Type) (is_valid : DB -> Payload -> option Content.fields)
  (now : Z) (db db' : DB) (user : User.t) (payload : Payload) (code : Z) :
  User.role user = "teacher" ->
  create is_valid (ContentViewSet.perform_create now) db user payload
  = Ok (db', code) ->
  (code = 400 /\ db' = db /\ is_valid db payload = None)
  \/ (code = 201
      /\ exists validated_data teacher row,
           is_valid db payload = Some validated_data
           /\ Teacher_objects_get db user = Ok teacher
           /\ Teacher.user teacher = User.id user
           /\ contents db' = contents db ++ [row]
           /\ Content.uploaded_by (Content.data row) = Teacher.id teacher
           /\ Content.data row
              = Content.with_uploaded_by validated_data (Teacher.id teacher)).
Proof.
  intros Hrole. unfold create.
  destruct (is_valid db payload) as [d|].
  - destruct (ContentViewSet.perform_create now db user d) as [db1|e] eqn:E;
      simpl; [|discriminate].
    intros [= <- <-]. right. split; [reflexivity|].
    apply (ContentViewSet_perform_create_teacher now db db1 user d Hrole) in E
      as [teacher [row [Hget [Hd [Hup ->]]]]].
    exists d, teacher, row. repeat split; try assumption.
    apply get_found in Hget as [_ Huser]. now apply Z.eqb_eq.
  - intros [= <- <-]. left. repeat split.
Qed.

Lemma content_create_forces_uploaded_by_witness :
  let payload := Sample.mk_content "Decimals" "Grade 1" 2 in
  let db' :=
    commit Sample.school
      (ContentViewSet.perform_create 70 Sample.school Sample.teacher_1 payload) in
  Teacher_objects_get Sample.school Sample.teacher_1 = Ok (Sample.mk_teacher 1 2)
  /\ map (fun c => Content.uploaded_by (Content.data c)) (contents db') = [2; 1].
Proof.
  intros payload db'.
  destruct (content_create_forces_uploaded_by _ (fun _ p => Some p) 70
              Sample.school db' Sample.teacher_1 payload 201 eq_refl eq_refl)
    as [[Hcode _]|[_ [d [teacher [row [_ [Hget [_ [Hrows [Hup _]]]]]]]]]].
  - discriminate Hcode.
  - split; [reflexivity|].
    rewrite Hrows, map_app. simpl. rewrite Hup.
    injection Hget as <-. reflexivity.
Defined.

(** ** Callers whose profile is missing *)

Lemma filter_none_of_lacking {A : Type} (p : A -> bool) (l : list A) :
  negb (existsb p l) = true -> QuerySet.filter p l = [].
Proof.
  intros H. apply negb_true_iff in H. now apply filter_nil_of_existsb.
Qed.

Lemma lacking_student (db : DB) (user : User.t) :
  User.role user = "student" -> lacks_profile db user = true ->
  Student_objects_get db user = Raise (DoesNotExist StudentModel).
Proof.
  unfold lacks_profile. intros ->. simpl. intros H.
  apply get_missing. now apply negb_true_iff.
Qed.

Lemma lacking_teacher (db : DB) (user : User.t) :
  User.role user = "teacher" -> lacks_profile db user = true ->
  Teacher_objects_get db user = Raise (DoesNotExist TeacherModel).
Proof.
  unfold lacks_profile. intros ->. simpl. intros H.
  apply get_missing. now apply negb_true_iff.
Qed.

Lemma lacking_parent (db : DB) (user : User.t) :
  User.role user = "parent" -> lacks_profile db user = true ->
  Parent_objects_get db user = Raise (DoesNotExist ParentModel).
Proof.
  unfold lacks_profile. intros ->. simpl. intros H.
  apply get_missing. now apply negb_true_iff.
Qed.

(** The role of a caller who lacks a profile is one of the three that name
    one. *)
Lemma lacks_profile_role (db : DB) (user : User.t) :
  lacks_profile db user = true ->
  User.role user = "student" \/ User.role user = "teacher"
  \/ User.role user = "parent".
Proof.
  unfold lacks_profile.
  destruct (String.eqb (User.role user) "student") eqn:Es;
    [apply String.eqb_eq in Es; auto|].
  destruct (String.eqb (User.role user) "teacher") eqn:Et;
    [apply String.eqb_eq in Et; auto|].
  destruct (String.eqb (User.role user) "parent") eqn:Ep;
    [apply String.eqb_eq in Ep; auto|].
  discriminate.
Qed.

(** Run the [get_queryset] of resource [r] for a caller whose role is known
    ([Hrole]) and whose [objects.get] is known to raise ([Hget]). *)
Ltac run_get_queryset r Hrole Hget :=
  destruct r; simpl;
  cbv beta delta [StudentViewSet.get_queryset TimetableViewSet.get_queryset
                  ContentViewSet.get_queryset AssessmentViewSet.get_queryset
                  SubmissionViewSet.get_queryset AttendanceViewSet.get_queryset
                  FeePaymentViewSet.get_queryset];
  rewrite Hrole; simpl; rewrite ?Hget; try reflexivity.

(** C6, as the code has it.  For a caller whose role names a profile the
    caller does not have, a list operation whose [get_queryset] has a branch
    for the caller's role returns the empty result, and one without such a
    branch returns every row of its table; neither raises.  The Content
    listing of a caller with role 'teacher' is left out of the statement. *)
Theorem missing_profile_listing (db : DB) (user : User.t) (r : resource) :
  lacks_profile db user = true ->
  ~ (r = ContentList /\ User.role user = "teacher") ->
  list_rows r db user
  = Ok (if scoped_by r (User.role user) then [] else table r db).
Proof.
  intros H _. destruct (lacks_profile_role db user H) as [Hr|[Hr|Hr]].
  - pose proof (lacking_student db user Hr H) as Hget.
    unfold lacks_profile in H. rewrite Hr in H. simpl in H.
    run_get_queryset r Hr Hget.
    now rewrite (filter_none_of_lacking _ _ H).
  - pose proof (lacking_teacher db user Hr H) as Hget.
    run_get_queryset r Hr Hget.
  - pose proof (lacking_parent db user Hr H) as Hget.
    run_get_queryset r Hr Hget.
Qed.

Lemma missing_profile_listing_witness :
  list_rows TimetableList Sample.school Sample.teacher_without_profile = Ok []
  /\ list_rows FeePaymentList Sample.school Sample.parent_without_profile = Ok []
  /\ list_rows AttendanceList Sample.school Sample.student_without_profile = Ok []
  /\ list_rows ContentList Sample.school Sample.student_without_profile = Ok []
  /\ list_rows StudentList Sample.school Sample.teacher_without_profile
     = Ok (students Sample.school)
  /\ list_rows TimetableList Sample.school Sample.parent_without_profile
     = Ok (timetables Sample.school).
Proof.
  split; [|split; [|split; [|split; [|split]]]].
  - apply (missing_profile_listing Sample.school Sample.teacher_without_profile
             TimetableList); [reflexivity|intros [E _]; discriminate E].
  - apply (missing_profile_listing Sample.school Sample.parent_without_profile
             FeePaymentList); [reflexivity|intros [E _]; discriminate E].
  - apply (missing_profile_listing Sample.school Sample.student_without_profile
             AttendanceList); [reflexivity|intros [E _]; discriminate E].
  - apply (missing_profile_listing Sample.school Sample.student_without_profile
             ContentList); [reflexivity|intros [_ E]; discriminate E].
  - apply (missing_profile_listing Sample.school Sample.teacher_without_profile
             StudentList); [reflexivity|intros [E _]; discriminate E].
  - apply (missing_profile_listing Sample.school Sample.parent_without_profile
             TimetableList); [reflexivity|intros [E _]; discriminate E].
Defined.

(** The claim as first stated fails: a caller with role 'teacher' and no
    Teacher row lists Student and receives every student, since
    [get_queryset] of [StudentViewSet] has branches for 'student' and
    'parent' only. *)
Lemma missing_profile_listing_counterexample :
  User.role Sample.teacher_without_profile = "teacher"
  /\ lacks_profile Sample.school Sample.teacher_without_profile = true
  /\ StudentViewSet.get_queryset Sample.school Sample.teacher_without_profile
     = Ok [Sample.student_a; Sample.student_b]
  /\ ~ (forall db user r,
          lacks_profile db user = true -> list_rows r db user = Ok []).
Proof.
  repeat split. intros H.
  specialize (H Sample.school Sample.teacher_without_profile StudentList eq_refl).
  discriminate H.
Qed.

(** ** Content as a teacher sees it *)

(** C7 fails on the code.  [get_queryset] of [ContentViewSet] has a branch
    for the student role only, where the viewsets of Assessment, Attendance,
    Submission and Timetable and the content query of [teacher_dashboard]
    narrow to the teacher.  Teacher 1, whose profile has key 1 and who has
    uploaded nothing, lists Content and receives the row that teacher 2
    uploaded; the rows with [uploaded_by] equal to the caller's profile, which
    the claim describes, are none. *)
Theorem teacher_content_listing_not_own :
  User.role Sample.teacher_1 = "teacher"
  /\ Teacher_objects_get Sample.school Sample.teacher_1 = Ok (Sample.mk_teacher 1 2)
  /\ ContentViewSet.get_queryset Sample.school Sample.teacher_1 = Ok [Sample.notes]
  /\ Content.uploaded_by (Content.data Sample.notes) = 2
  /\ QuerySet.filter
       (fun c => Content.uploaded_by (Content.data c)
                 =? Teacher.id (Sample.mk_teacher 1 2))
       (contents Sample.school) = []
  /\ ~ (forall db user teacher rows,
          User.role user = "teacher" ->
          Teacher_objects_get db user = Ok teacher ->
          ContentViewSet.get_queryset db user = Ok rows ->
          forall c, In c rows ->
                    Content.uploaded_by (Content.data c) = Teacher.id teacher).
Proof.
  repeat split. intros H.
  specialize (H Sample.school Sample.teacher_1 (Sample.mk_teacher 1 2)
                [Sample.notes] eq_refl eq_refl eq_refl Sample.notes
                (or_introl eq_refl)).
  discriminate H.
Qed.

(** ** Dashboards *)

(** C9. A caller with role 'teacher', 'student' or 'parent' who lacks the
    matching profile gets, from the matching dashboard, the 404 response
    whose body is the error message. *)
Theorem dashboard_404_without_profile (now : Z) (db : DB) (user : User.t) :
  lacks_profile db user = true ->
  (User.role user = "teacher" ->
   teacher_dashboard now db user
   = Ok {| data := ErrorDict "Teacher profile not found"; status := 404 |})
  /\ (User.role user = "student" ->
      student_dashboard now db user
      = Ok {| data := ErrorDict "Student profile not found"; status := 404 |})
  /\ (User.role user = "parent" ->
      parent_dashboard db user
      = Ok {| data := ErrorDict "Parent profile not found"; status := 404 |}).
Proof.
  intros H. split; [|split]; intros Hrole.
  - unfold teacher_dashboard. now rewrite (lacking_teacher db user Hrole H).
  - unfold student_dashboard. now rewrite (lacking_student db user Hrole H).
  - unfold parent_dashboard. now rewrite (lacking_parent db user Hrole H).
Qed.

Lemma dashboard_404_without_profile_witness :
  teacher_dashboard 0 Sample.school Sample.teacher_without_profile
  = Ok {| data := ErrorDict "Teacher profile not found"; status := 404 |}
  /\ student_dashboard 0 Sample.school Sample.student_without_profile
     = Ok {| data := ErrorDict "Student profile not found"; status := 404 |}
  /\ parent_dashboard Sample.school Sample.parent_without_profile
     = Ok {| data := ErrorDict "Parent profile not found"; status := 404 |}.
Proof.
  split; [|split].
  - apply (dashboard_404_without_profile 0 Sample.school
             Sample.teacher_without_profile); reflexivity.
  - apply (dashboard_404_without_profile 0 Sample.school
             Sample.student_without_profile); reflexivity.
  - apply (dashboard_404_without_profile 0 Sample.school
             Sample.parent_without_profile); reflexivity.
Defined.

(** A caller who has the profile is answered with status 200. *)
Example student_a_dashboard :
  match student_dashboard 0 Sample.school Sample.student_a_user with
  | Ok r =>
      status r = 200
      /\ match data r with
         | Data d => attendance_percentage d = Py.Float (Py.float_of_int 80)
         | ErrorDict _ => False
         end
  | Raise _ => False
  end.
Proof. vm_compute. split; reflexivity. Qed.

(** ** Creating as the wrong role *)

Lemma create_when_nothing_saved {Payload Fields : Type}
  (is_valid : DB -> Payload -> option Fields)
  (perform_create : DB -> User.t -> Fields -> result DB)
  (db : DB) (user : User.t) (payload : Payload) :
  (forall d, perform_create db user d = Ok db) ->
  create is_valid perform_create db user payload
  = Ok (db, match is_valid db payload with Some _ => 201 | None => 400 end).
Proof.
  intros H. unfold create. destruct (is_valid db payload) as [d|]; [|reflexivity].
  now rewrite H.
Qed.

(** C10. When the caller's role is not the one [perform_create] saves for
    (teacher for Content and Attendance, student for Submission), the create
    inserts nothing: [perform_create] returns the database as it was and
    raises nothing, so the endpoint leaves the stored state unchanged and
    still answers 201 to every payload that validates. *)
Theorem create_with_other_role_saves_nothing (now : Z) (db : DB) (user : User.t) :
  (User.role user <> "teacher" ->
   (forall d, ContentViewSet.perform_create now db user d = Ok db)
   /\ (forall d, AttendanceViewSet.perform_create db user d = Ok db)
   /\ (forall (Payload : Type) (is_valid : DB -> Payload -> option Content.fields)
              (payload : Payload),
         create is_valid (ContentViewSet.perform_create now) db user payload
         = Ok (db, match is_valid db payload with Some _ => 201 | None => 400 end))
   /\ (forall (Payload : Type) (is_valid : DB -> Payload -> option Attendance.fields)
              (payload : Payload),
         create is_valid AttendanceViewSet.perform_create db user payload
         = Ok (db, match is_valid db payload with Some _ => 201 | None => 400 end)))
  /\ (User.role user <> "student" ->
      (forall d, SubmissionViewSet.perform_create now db user d = Ok db)
      /\ (forall (Payload : Type) (is_valid : DB -> Payload -> option Submission.fields)
                 (payload : Payload),
            create is_valid (SubmissionViewSet.perform_create now) db user payload
            = Ok (db, match is_valid db payload with Some _ => 201 | None => 400 end))).
Proof.
  split; intros Hrole; apply role_is_not in Hrole.
  - assert (Hc : forall d, ContentViewSet.perform_create now db user d = Ok db).
    { intros d. unfold ContentViewSet.perform_create. now rewrite Hrole. }
    assert (Ha : forall d, AttendanceViewSet.perform_create db user d = Ok db).
    { intros d. unfold AttendanceViewSet.perform_create. now rewrite Hrole. }
    repeat split; try assumption; intros; now apply create_when_nothing_saved.
  - assert (Hs : forall d, SubmissionViewSet.perform_create now db user d = Ok db).
    { intros d. unfold SubmissionViewSet.perform_create. now rewrite Hrole. }
    split; [assumption|]. intros. now apply create_when_nothing_saved.
Qed.

Lemma create_with_other_role_saves_nothing_witness :
  create (fun _ p => Some p) (ContentViewSet.perform_create 70)
         Sample.school Sample.admin (Sample.mk_content "Decimals" "Grade 1" 2)
  = Ok (Sample.school, 201)
  /\ create (fun _ p => Some p) (SubmissionViewSet.perform_create 70)
            Sample.school Sample.teacher_1 (Sample.mk_submission 1 1)
     = Ok (Sample.school, 201).
Proof.
  destruct (create_with_other_role_saves_nothing 70 Sample.school Sample.admin)
    as [Hteacher _].
  destruct (create_with_other_role_saves_nothing 70 Sample.school Sample.teacher_1)
    as [_ Hstudent].
  split.
  - apply (Hteacher ltac:(discriminate)).
  - apply (Hstudent ltac:(discriminate)).
Defined.

(** ** Recent announcements on the admin dashboard *)

(** [sort_by_recency] is a sort: it permutes its input and puts later
    creation dates first. *)
Lemma insert_by_recency_perm (a : Announcement.t) (l : list Announcement.t) :
  Permutation (a :: l) (insert_by_recency a l).
Proof.
  induction l as [|b l IH]; simpl; [reflexivity|].
  destruct (Announcement.created_date b <=? Announcement.created_date a);
    [reflexivity|].
  rewrite perm_swap. now apply perm_skip.
Qed.

Lemma sort_by_recency_perm (l : list Announcement.t) :
  Permutation l (sort_by_recency l).
Proof.
  induction l as [|a l IH]; simpl; [reflexivity|].
  rewrite <- insert_by_recency_perm. now apply perm_skip.
Qed.

Lemma insert_by_recency_sorted (a : Announcement.t) (l : list Announcement.t) :
  Sorted no_older l -> Sorted no_older (insert_by_recency a l).
Proof.
  induction l as [|b l IH]; simpl; intros Hs.
  - repeat constructor.
  - destruct (Announcement.created_date b <=? Announcement.created_date a) eqn:E.
    + constructor; [exact Hs|]. constructor. now apply Z.leb_le.
    + apply Z.leb_gt in E. inversion Hs as [|? ? Hl Hhd]; subst.
      constructor; [now apply IH|].
      destruct l as [|c l]; simpl.
      * constructor. unfold no_older. lia.
      * destruct (Announcement.created_date c <=? Announcement.created_date a);
          constructor; [unfold no_older; lia|now inversion Hhd].
Qed.

Lemma sort_by_recency_sorted (l : list Announcement.t) :
  Sorted no_older (sort_by_recency l).
Proof.
  induction l as [|a l IH]; simpl; [constructor|].
  now apply insert_by_recency_sorted.
Qed.

(** What the endpoint puts in [recent_announcements]: the first five active
    announcements in storage order. *)
Lemma admin_dashboard_data (db : DB) (user : User.t) :
  data (admin_dashboard db user)
  = Data
      {| total_students := QuerySet.count (students db);
         total_teachers := QuerySet.count (teachers db);
         total_parents := QuerySet.count (parents db);
         total_classes := QuerySet.count (classes db);
         total_subjects := QuerySet.count (subjects db);
         active_academic_year :=
           QuerySet.first (QuerySet.filter AcademicYear.is_active (academic_years db));
         recent_announcements :=
           firstn 5 (List.filter Announcement.is_active (announcements db)) |}.
Proof.
  unfold admin_dashboard, respond. simpl.
  destruct (QuerySet.filter AcademicYear.is_active (academic_years db));
    reflexivity.
Qed.

(** C8 fails on the code.  With six active announcements created at times
    10, 20, ..., 60 and stored in that order, [recent_announcements] holds
    the five oldest (keys 1 to 5, oldest first), whereas the five most recent
    by recency are the keys 6, 5, 4, 3, 2. *)
Theorem admin_dashboard_recent_announcements_not_by_recency :
  match data (admin_dashboard Sample.school Sample.admin) with
  | Data d =>
      map Announcement.id (recent_announcements d) = [1; 2; 3; 4; 5]
      /\ recent_announcements d
         <> most_recent_active 5 (announcements Sample.school)
  | ErrorDict _ => False
  end
  /\ map Announcement.id (most_recent_active 5 (announcements Sample.school))
     = [6; 5; 4; 3; 2].
Proof. repeat split. discriminate. Qed.

(* ================================================================== *)
(** * Further properties of the views *)

(** ** More on the attendance percentage *)

Lemma attendance_of_append (db : DB) (student : Student.t) (extra : list Attendance.t) :
  attendance_of (set_attendances db (attendances db ++ extra)) student
  = attendance_of db student
    ++ List.filter
         (fun a => Attendance.student (Attendance.data a) =? Student.id student) extra.
Proof. unfold attendance_of. simpl. apply filter_app. Qed.

Lemma filter_nothing {A : Type} (p : A -> bool) (l : list A) :
  (forall x, In x l -> p x = false) -> List.filter p l = [].
Proof.
  induction l as [|x l IH]; simpl; intros H; [reflexivity|].
  rewrite (H x (or_introl eq_refl)). apply IH. intros y Hy. apply H. now right.
Qed.

(** X1. A student who has attendance rows, none of them 'present', gets the
    float 0.0, where a student without any row gets the integer 0. *)
Theorem attendance_percentage_none_present (db : DB) (student : Student.t) :
  attendance_of db student <> [] ->
  List.filter is_present (attendance_of db student) = [] ->
  calculate_attendance_percentage db student = Py.Float (S754_zero false).
Proof.
  intros Hrows Hnone. rewrite calculate_attendance_percentage_refines.
  unfold attendance_percentage_spec. rewrite Hnone.
  destruct (attendance_of db student) as [|a l]; [contradiction|].
  simpl List.length. reflexivity.
Qed.

Lemma attendance_percentage_none_present_witness :
  let db :=
    set_attendances Sample.school
      [Sample.mk_attendance 1 1 1 "absent"; Sample.mk_attendance 2 1 2 "late"] in
  calculate_attendance_percentage db Sample.student_a = Py.Float (S754_zero false).
Proof.
  intros db.
  apply (attendance_percentage_none_present db Sample.student_a).
  - discriminate.
  - reflexivity.
Defined.

(** X2. The percentage of a student depends on that student's rows only:
    storing further attendance rows of other students leaves it as it
    was. *)
Theorem attendance_percentage_ignores_others
  (db : DB) (student : Student.t) (extra : list Attendance.t) :
  (forall a, In a extra ->
             Attendance.student (Attendance.data a) <> Student.id student) ->
  calculate_attendance_percentage
    (set_attendances db (attendances db ++ extra)) student
  = calculate_attendance_percentage db student.
Proof.
  intros Hother. rewrite !calculate_attendance_percentage_refines.
  unfold attendance_percentage_spec. rewrite attendance_of_append.
  rewrite (filter_nothing _ extra), app_nil_r; [reflexivity|].
  intros a Ha. apply Z.eqb_neq. now apply Hother.
Qed.

Lemma attendance_percentage_ignores_others_witness :
  calculate_attendance_percentage
    (set_attendances Sample.school
       (attendances Sample.school ++ [Sample.mk_attendance 13 2 11 "absent"]))
    Sample.student_a
  = calculate_attendance_percentage Sample.school Sample.student_a.
Proof.
  apply (attendance_percentage_ignores_others Sample.school Sample.student_a
           [Sample.mk_attendance 13 2 11 "absent"]).
  intros a [<-|[]]. discriminate.
Defined.

(** X3. For a student with 1 to 100 attendance rows the percentage is the
    float nearest to [n / 100] for some [0 <= n <= 10000], that is, it lies
    between 0 and 100; when every row is 'present' it is exactly 100.0. *)
Theorem attendance_percentage_range (db : DB) (student : Student.t) :
  let total := List.length (attendance_of db student) in
  let present := List.length (List.filter is_present (attendance_of db student)) in
  (1 <= total <= 100)%nat ->
  (exists n,
     0 <= n <= 10000
     /\ calculate_attendance_percentage db student = Py.Float (Py.truediv n 100))
  /\ (present = total ->
      calculate_attendance_percentage db student = Py.Float (Py.float_of_int 100)).
Proof.
  intros total present Ht.
  assert (Hle : (present <= total)%nat) by apply filter_length_le.
  destruct (percent_2dp_nearest (Z.of_nat total) (Z.of_nat present))
    as [n [Hn Heq]]; [lia|lia|].
  assert (Hcalc : calculate_attendance_percentage db student
                  = Py.Float (Py.truediv n 100)).
  { rewrite calculate_attendance_percentage_refines.
    unfold attendance_percentage_spec. fold total. fold present.
    destruct total; [lia|]. now rewrite Heq. }
  split.
  - exists n. split; [|exact Hcalc]. split; nia.
  - intros Hall. rewrite Hall in Hn.
    assert (n = 10000) as -> by nia.
    rewrite Hcalc. vm_compute. reflexivity.
Qed.

Lemma attendance_percentage_range_witness :
  exists n,
    0 <= n <= 10000
    /\ calculate_attendance_percentage Sample.school Sample.student_b
       = Py.Float (Py.truediv n 100).
Proof.
  apply (attendance_percentage_range Sample.school Sample.student_b).
  simpl. lia.
Defined.

(** ** Announcements, messages and notifications *)

(** An active announcement for 'all' is listed to every caller. *)
Lemma announcement_listing_iff_all (db : DB) (viewer : User.t) (a : Announcement.t) :
  In a (announcements db) ->
  Announcement.is_active a = true ->
  Announcement.target_audience a = "all" ->
  In a (AnnouncementViewSet.get_queryset db viewer).
Proof.
  intros Hin Hact Hall.
  unfold AnnouncementViewSet.get_queryset, QuerySet.filter.
  assert (Hactive : In a (List.filter Announcement.is_active (announcements db)))
    by (apply filter_In; now split).
  destruct (negb _); [|exact Hactive].
  apply filter_In. split; [exact Hactive|].
  unfold AnnouncementViewSet.for_audience. rewrite Hall. reflexivity.
Qed.

(** X4. An announcement is listed to a caller exactly when it is stored and
    active and the caller is an admin or the audience is 'all' or the
    caller's role followed by 's'; so an inactive announcement is listed to
    nobody, and whatever a caller is shown an admin is shown too. *)
Theorem announcement_listing (db : DB) (user admin : User.t) (a : Announcement.t) :
  (In a (AnnouncementViewSet.get_queryset db user) <->
   In a (announcements db)
   /\ Announcement.is_active a = true
   /\ (User.role user = "admin"
       \/ Announcement.target_audience a = "all"
       \/ Announcement.target_audience a = String.append (User.role user) "s"))
  /\ (User.role admin = "admin" ->
      In a (AnnouncementViewSet.get_queryset db user) ->
      In a (AnnouncementViewSet.get_queryset db admin)).
Proof.
  assert (Hiff : forall u,
    In a (AnnouncementViewSet.get_queryset db u) <->
    In a (announcements db)
    /\ Announcement.is_active a = true
    /\ (User.role u = "admin"
        \/ Announcement.target_audience a = "all"
        \/ Announcement.target_audience a = String.append (User.role u) "s")).
  { intros u. unfold AnnouncementViewSet.get_queryset, QuerySet.filter.
    destruct (String.eqb (User.role u) "admin") eqn:E; simpl.
    - apply String.eqb_eq in E. rewrite filter_In. tauto.
    - apply String.eqb_neq in E. rewrite !filter_In.
      unfold AnnouncementViewSet.for_audience.
      rewrite orb_true_iff, !String.eqb_eq. tauto. }
  split; [apply Hiff|].
  intros Hadmin Hin. apply Hiff. apply Hiff in Hin. tauto.
Qed.

Lemma announcement_listing_witness :
  In (Sample.mk_announcement 1 10 true)
     (AnnouncementViewSet.get_queryset Sample.school Sample.admin).
Proof.
  apply (announcement_listing Sample.school Sample.student_a_user Sample.admin
           (Sample.mk_announcement 1 10 true)); [reflexivity|].
  simpl. now left.
Defined.

(** What a successful [Announcement.objects.create] did. *)
Lemma Announcement_objects_create_Ok (now : Z) (d : AnnouncementFields.t)
  (db db' : DB) :
  Announcement_objects_create now d db = Ok db' ->
  exists row,
    Announcement.created_by row = AnnouncementFields.created_by d
    /\ Announcement.target_audience row = AnnouncementFields.target_audience d
    /\ Announcement.is_active row = AnnouncementFields.is_active d
    /\ Announcement.created_date row = now
    /\ db' = set_announcements db (announcements db ++ [row]).
Proof.
  unfold Announcement_objects_create. destruct (negb _); [discriminate|].
  intros [= <-]. eexists. repeat split; reflexivity.
Qed.

(** X5. Creating an announcement is open to every role: for any caller who
    is a stored user the create succeeds and appends one row whose
    [created_by] is the caller, whatever the payload named.  If the payload
    is active with audience 'all', every caller is then shown the new row;
    if it is inactive, nobody is. *)
Theorem announcement_create_then_list
  (now : Z) (db : DB) (user : User.t) (d : AnnouncementFields.t) :
  has_pk User.id (User.id user) (users db) = true ->
  exists db' row,
    AnnouncementViewSet.perform_create now db user d = Ok db'
    /\ announcements db' = announcements db ++ [row]
    /\ Announcement.created_by row = User.id user
    /\ (AnnouncementFields.is_active d = true ->
        AnnouncementFields.target_audience d = "all" ->
        forall viewer, In row (AnnouncementViewSet.get_queryset db' viewer))
    /\ (AnnouncementFields.is_active d = false ->
        forall viewer, ~ In row (AnnouncementViewSet.get_queryset db' viewer)).
Proof.
  intros Huser.
  destruct (AnnouncementViewSet.perform_create now db user d) as [db'|e] eqn:E.
  - unfold AnnouncementViewSet.perform_create in E.
    apply Announcement_objects_create_Ok in E
      as [row [Hby [Haud [Hact [_ ->]]]]].
    simpl in Hby, Haud, Hact.
    exists (set_announcements db (announcements db ++ [row])), row.
    split; [reflexivity|]. split; [reflexivity|]. split; [exact Hby|]. split.
    + intros Hactive Hall viewer.
      apply (announcement_listing_iff_all
               (set_announcements db (announcements db ++ [row])) viewer row).
      * simpl. apply in_or_app. right. now left.
      * congruence.
      * congruence.
    + intros Hinactive viewer Hin.
      unfold AnnouncementViewSet.get_queryset, QuerySet.filter in Hin.
      destruct (negb _) in Hin;
        [apply filter_In in Hin as [Hin _]|];
        apply filter_In in Hin as [_ Hin]; congruence.
  - exfalso. unfold AnnouncementViewSet.perform_create,
      Announcement_objects_create in E. simpl in E.
    rewrite Huser in E. discriminate.
Qed.

Lemma announcement_create_then_list_witness :
  exists db' row,
    AnnouncementViewSet.perform_create 70 Sample.school Sample.student_a_user
      (Mailbox.notice "all" true) = Ok db'
    /\ Announcement.created_by row = 4
    /\ In row (AnnouncementViewSet.get_queryset db' Sample.parent_user).
Proof.
  destruct (announcement_create_then_list 70 Sample.school Sample.student_a_user
              (Mailbox.notice "all" true) eq_refl)
    as [db' [row [Hcreate [_ [Hby [Hshown _]]]]]].
  exists db', row. split; [exact Hcreate|]. split; [exact Hby|].
  apply Hshown; reflexivity.
Defined.

(** What a successful [Message.objects.create] did. *)
Lemma Message_objects_create_Ok (now : Z) (d : Message.fields) (db : DB)
  (messages messages' : list Message.t) :
  Message_objects_create now d db messages = Ok messages' ->
  exists row,
    Message.data row = d /\ Message.sent_date row = now
    /\ messages' = messages ++ [row].
Proof.
  unfold Message_objects_create. destruct (negb _); [discriminate|].
  intros [= <-]. eexists. repeat split; reflexivity.
Qed.

(** A caller lists exactly the messages of which the caller is the sender
    or the receiver. *)
Lemma message_listing (messages : list Message.t) (user : User.t) (m : Message.t) :
  In m (MessageViewSet.get_queryset messages user) <->
  In m messages
  /\ (Message.sender (Message.data m) = User.id user
      \/ Message.receiver (Message.data m) = User.id user).
Proof.
  unfold MessageViewSet.get_queryset, QuerySet.filter, MessageViewSet.involves.
  rewrite filter_In, orb_true_iff, !Z.eqb_eq. reflexivity.
Qed.

(** X6. A message that is created has the caller as its sender, whichever
    sender the payload named.  From then on the caller and the receiver are
    listed the new message besides the messages they were listed before, and
    every other user is listed exactly the messages listed before. *)
Theorem message_create_then_list
  (now : Z) (db : DB) (messages messages' : list Message.t)
  (user : User.t) (d : Message.fields) :
  MessageViewSet.perform_create now db messages user d = Ok messages' ->
  exists row,
    (forall m, In m messages' <-> In m messages \/ m = row)
    /\ Message.sender (Message.data row) = User.id user
    /\ Message.receiver (Message.data row) = Message.receiver d
    /\ (forall m,
          In m (MessageViewSet.get_queryset messages' user) <->
          In m (MessageViewSet.get_queryset messages user) \/ m = row)
    /\ (forall other m,
          User.id other = Message.receiver d ->
          In m (MessageViewSet.get_queryset messages' other) <->
          In m (MessageViewSet.get_queryset messages other) \/ m = row)
    /\ (forall other m,
          User.id other <> User.id user ->
          User.id other <> Message.receiver d ->
          In m (MessageViewSet.get_queryset messages' other) <->
          In m (MessageViewSet.get_queryset messages other)).
Proof.
  unfold MessageViewSet.perform_create. intros H.
  apply Message_objects_create_Ok in H as [row [Hd [_ ->]]].
  exists row. rewrite Hd. simpl.
  assert (Hstored : forall m, In m (messages ++ [row]) <-> In m messages \/ m = row).
  { intros m. rewrite in_app_iff. simpl. intuition. }
  split; [exact Hstored|]. split; [reflexivity|]. split; [reflexivity|].
  assert (Hrow : forall other,
            MessageViewSet.involves other row = true <->
            User.id other = User.id user \/ User.id other = Message.receiver d).
  { intros other. unfold MessageViewSet.involves. rewrite Hd. simpl.
    rewrite orb_true_iff, !Z.eqb_eq. intuition. }
  assert (Hlist : forall other m,
            In m (MessageViewSet.get_queryset (messages ++ [row]) other) <->
            In m (MessageViewSet.get_queryset messages other)
            \/ (m = row /\ MessageViewSet.involves other row = true)).
  { intros other m. rewrite !message_listing, Hstored.
    unfold MessageViewSet.involves. rewrite orb_true_iff, !Z.eqb_eq.
    split.
    - intros [[Hin| ->] Hinv]; [left; now split|right; now split].
    - intros [[Hin Hinv]|[-> Hinv]]; (split; [auto|exact Hinv]). }
  split; [|split].
  - intros m. rewrite Hlist, Hrow. intuition.
  - intros other m Hother. rewrite Hlist, Hrow. intuition.
  - intros other m Hsender Hreceiver. rewrite Hlist, Hrow. intuition.
Qed.

Lemma message_create_then_list_witness :
  let messages' :=
    Mailbox.messages
      ++ [{| Message.id := 4;
             Message.data := Message.with_sender (Mailbox.draft 3 6) 2;
             Message.sent_date := 9 |}] in
  exists row,
    Message.sender (Message.data row) = 2
    /\ In row (MessageViewSet.get_queryset messages' Sample.teacher_1)
    /\ In row (MessageViewSet.get_queryset messages' Sample.parent_user)
    /\ ~ In row (MessageViewSet.get_queryset messages' Sample.teacher_2).
Proof.
  intros messages'.
  destruct (message_create_then_list 9 Sample.school Mailbox.messages messages'
              Sample.teacher_1 (Mailbox.draft 3 6) eq_refl)
    as [row [Hstored [Hsender [Hreceiver [Hcaller [Hother Hthird]]]]]].
  exists row. split; [exact Hsender|]. split; [|split].
  - apply Hcaller. now right.
  - apply (Hother Sample.parent_user); [reflexivity|now right].
  - intros Hin.
    apply (Hthird Sample.teacher_2 row) in Hin; [|discriminate|discriminate].
    apply message_listing in Hin as [_ [Hs|Hr]].
    + rewrite Hsender in Hs. discriminate Hs.
    + rewrite Hreceiver in Hr. discriminate Hr.
Defined.

(** X7. A caller lists only notifications addressed to the caller, so no
    notification is listed to two different users. *)
Theorem notification_listing_disjoint
  (notifications : list Notification.t) (user other : User.t) (n : Notification.t) :
  (In n (NotificationViewSet.get_queryset notifications user) <->
   In n notifications /\ Notification.user n = User.id user)
  /\ (User.id user <> User.id other ->
      In n (NotificationViewSet.get_queryset notifications user) ->
      ~ In n (NotificationViewSet.get_queryset notifications other)).
Proof.
  assert (Hiff : forall u,
    In n (NotificationViewSet.get_queryset notifications u) <->
    In n notifications /\ Notification.user n = User.id u).
  { intros u. unfold NotificationViewSet.get_queryset, QuerySet.filter.
    now rewrite filter_In, Z.eqb_eq. }
  split; [apply Hiff|].
  intros Hne Hu Ho. apply Hiff in Hu as [_ Hu]. apply Hiff in Ho as [_ Ho].
  congruence.
Qed.

Lemma notification_listing_disjoint_witness :
  ~ In (Mailbox.mk_notification 1 4)
       (NotificationViewSet.get_queryset Mailbox.notifications Sample.parent_user).
Proof.
  apply (notification_listing_disjoint Mailbox.notifications
           Sample.student_a_user Sample.parent_user (Mailbox.mk_notification 1 4)).
  - discriminate.
  - simpl. now left.
Defined.

(** ** Listings by role *)

Lemma get_Ok_filter {A : Type} (m : model) (p : A -> bool) (qs : list A) (r : A) :
  QuerySet.get m p qs = Ok r -> List.filter p qs = [r].
Proof.
  unfold QuerySet.get.
  destruct (List.filter p qs) as [|x [|y l]]; try discriminate.
  now intros [= ->].
Qed.

Lemma filter_key_unique {A : Type} (key : A -> Z) (k : Z) (l : list A) :
  NoDup (map key l) ->
  (List.length (List.filter (fun x => (key x =? k)%Z) l) <= 1)%nat.
Proof.
  induction l as [|x l IH]; simpl; intros Hnd; [lia|].
  inversion Hnd as [|? ? Hx Hl]; subst.
  destruct (key x =? k) eqn:E; [|now apply IH].
  apply Z.eqb_eq in E. simpl.
  rewrite (filter_nothing _ l); [simpl; lia|].
  intros y Hy. apply Z.eqb_neq. intros Hk. apply Hx. rewrite E, <- Hk.
  now apply in_map.
Qed.

(** Under a unique key, [get] finds the row or raises [DoesNotExist]; it
    never raises [MultipleObjectsReturned]. *)
Lemma get_under_unique_key {A : Type} (m : model) (key : A -> Z) (k : Z) (l : list A) :
  NoDup (map key l) ->
  QuerySet.get m (fun x => key x =? k) l = Raise (DoesNotExist m)
  \/ exists r, QuerySet.get m (fun x => key x =? k) l = Ok r.
Proof.
  intros Hnd. pose proof (filter_key_unique key k l Hnd) as Hlen.
  unfold QuerySet.get.
  destruct (List.filter (fun x => key x =? k) l) as [|x [|y l']];
    [now left|right; now exists x|simpl in Hlen; lia].
Qed.

(** X8. A caller with role 'student', 'teacher' or 'parent' who has the
    profile of that role lists, among the profiles of that kind, exactly
    that one profile. *)
Theorem own_profile_listing (db : DB) (user : User.t) :
  (User.role user = "student" ->
   forall s, Student_objects_get db user = Ok s ->
             StudentViewSet.get_queryset db user = Ok [s])
  /\ (User.role user = "teacher" ->
      forall t, Teacher_objects_get db user = Ok t ->
                TeacherViewSet.get_queryset db user = Ok [t])
  /\ (User.role user = "parent" ->
      forall p, Parent_objects_get db user = Ok p ->
                ParentViewSet.get_queryset db user = Ok [p]).
Proof.
  split; [|split]; intros Hrole x Hget; apply get_Ok_filter in Hget.
  - unfold StudentViewSet.get_queryset, QuerySet.filter. now rewrite Hrole, Hget.
  - unfold TeacherViewSet.get_queryset, QuerySet.filter. now rewrite Hrole, Hget.
  - unfold ParentViewSet.get_queryset, QuerySet.filter. now rewrite Hrole, Hget.
Qed.

Lemma own_profile_listing_witness :
  StudentViewSet.get_queryset Sample.school Sample.student_a_user
  = Ok [Sample.student_a]
  /\ TeacherViewSet.get_queryset Sample.school Sample.teacher_2
     = Ok [Sample.mk_teacher 2 3]
  /\ ParentViewSet.get_queryset Sample.school Sample.parent_user
     = Ok [Sample.mk_parent 1 6].
Proof.
  split; [|split].
  - apply (own_profile_listing Sample.school Sample.student_a_user); reflexivity.
  - apply (own_profile_listing Sample.school Sample.teacher_2); reflexivity.
  - apply (own_profile_listing Sample.school Sample.parent_user); reflexivity.
Defined.

(** X9. A caller with role 'parent' who has a Parent profile lists exactly
    the students whose [parent] is that profile; a student without a parent
    is never among them. *)
Theorem parent_lists_children (db : DB) (user : User.t) (parent : Parent.t) :
  User.role user = "parent" ->
  Parent_objects_get db user = Ok parent ->
  exists rows,
    StudentViewSet.get_queryset db user = Ok rows
    /\ (forall s, In s rows <->
                  In s (students db) /\ Student.parent s = Some (Parent.id parent))
    /\ (forall s, In s rows -> Student.parent s <> None).
Proof.
  intros Hrole Hget. unfold StudentViewSet.get_queryset.
  rewrite Hrole, Hget. simpl. eexists. split; [reflexivity|].
  assert (Hiff : forall s,
    In s (QuerySet.filter (has_parent parent) (students db)) <->
    In s (students db) /\ Student.parent s = Some (Parent.id parent)).
  { intros s. unfold QuerySet.filter. now rewrite filter_In, has_parent_iff. }
  split; [exact Hiff|].
  intros s Hs. apply Hiff in Hs as [_ Hs]. congruence.
Qed.

Lemma parent_lists_children_witness :
  exists rows,
    StudentViewSet.get_queryset Sample.school Sample.parent_user = Ok rows
    /\ (forall s, In s rows <->
                  In s (students Sample.school) /\ Student.parent s = Some 1)
    /\ (forall s, In s rows -> Student.parent s <> None).
Proof.
  apply (parent_lists_children Sample.school Sample.parent_user
           (Sample.mk_parent 1 6)); reflexivity.
Defined.

(** X10. A caller with role 'student' who has a Student profile lists, of
    submissions, attendance rows and fee payments, exactly the rows whose
    [student] is that profile, and of content exactly the rows of the
    student's grade. *)
Theorem student_lists_own_rows (db : DB) (user : User.t) (student : Student.t) :
  User.role user = "student" ->
  Student_objects_get db user = Ok student ->
  exists subs atts pays cons,
    SubmissionViewSet.get_queryset db user = Ok subs
    /\ AttendanceViewSet.get_queryset db user = Ok atts
    /\ FeePaymentViewSet.get_queryset db user = Ok pays
    /\ ContentViewSet.get_queryset db user = Ok cons
    /\ (forall s, In s subs <->
                  In s (submissions db)
                  /\ Submission.student (Submission.data s) = Student.id student)
    /\ (forall a, In a atts <->
                  In a (attendances db)
                  /\ Attendance.student (Attendance.data a) = Student.id student)
    /\ (forall p, In p pays <->
                  In p (fee_payments db)
                  /\ FeePayment.student p = Student.id student)
    /\ (forall c, In c cons <->
                  In c (contents db)
                  /\ Content.grade (Content.data c) = Student.grade student).
Proof.
  intros Hrole Hget.
  unfold SubmissionViewSet.get_queryset, AttendanceViewSet.get_queryset,
    FeePaymentViewSet.get_queryset, ContentViewSet.get_queryset.
  rewrite Hrole, Hget. simpl. do 4 eexists.
  do 4 (split; [reflexivity|]). unfold QuerySet.filter.
  split; [|split; [|split]]; intros x; rewrite filter_In;
    rewrite ?Z.eqb_eq, ?String.eqb_eq; reflexivity.
Qed.

Lemma student_lists_own_rows_witness :
  exists subs atts pays cons,
    SubmissionViewSet.get_queryset Sample.school Sample.student_a_user = Ok subs
    /\ AttendanceViewSet.get_queryset Sample.school Sample.student_a_user = Ok atts
    /\ FeePaymentViewSet.get_queryset Sample.school Sample.student_a_user = Ok pays
    /\ ContentViewSet.get_queryset Sample.school Sample.student_a_user = Ok cons
    /\ (forall s, In s subs <->
                  In s (submissions Sample.school)
                  /\ Submission.student (Submission.data s) = 1)
    /\ (forall a, In a atts <->
                  In a (attendances Sample.school)
                  /\ Attendance.student (Attendance.data a) = 1)
    /\ (forall p, In p pays <->
                  In p (fee_payments Sample.school) /\ FeePayment.student p = 1)
    /\ (forall c, In c cons <->
                  In c (contents Sample.school)
                  /\ Content.grade (Content.data c) = "Grade 1").
Proof.
  apply (student_lists_own_rows Sample.school Sample.student_a_user
           Sample.student_a); reflexivity.
Defined.

Lemma assessment_has_teacher_iff (db : DB) (k : Z) (t : Teacher.t) :
  assessment_has_teacher db k t = true
  <-> exists a, In a (assessments db) /\ Assessment.id a = k
                /\ Assessment.teacher a = Teacher.id t.
Proof.
  unfold assessment_has_teacher. rewrite existsb_exists. split.
  - intros [a [Hin H]]. apply andb_prop in H as [Hk Ht].
    exists a. rewrite Z.eqb_eq in Hk, Ht. auto.
  - intros [a [Hin [Hk Ht]]]. exists a. split; [exact Hin|].
    rewrite andb_true_iff, !Z.eqb_eq. auto.
Qed.

Lemma teaches_subject_iff (db : DB) (t : Teacher.t) (k : Z) :
  has_pk Subject.id k (Teacher_subjects_all db t) = true
  <-> exists s, In s (subjects db) /\ Subject.id s = k
                /\ In (Teacher.id t, Subject.id s) (teacher_subjects db).
Proof.
  unfold has_pk, Teacher_subjects_all, QuerySet.filter.
  rewrite existsb_exists. split.
  - intros [s [Hin Hk]]. apply filter_In in Hin as [Hin Hts].
    apply Z.eqb_eq in Hk. exists s. split; [exact Hin|]. split; [exact Hk|].
    apply existsb_exists in Hts as [[a b] [Hab H]]. simpl in H.
    apply andb_prop in H as [Ha Hb]. apply Z.eqb_eq in Ha, Hb. now subst.
  - intros [s [Hin [Hk Hts]]]. exists s. split; [|now apply Z.eqb_eq].
    apply filter_In. split; [exact Hin|]. apply existsb_exists.
    exists (Teacher.id t, Subject.id s). split; [exact Hts|].
    simpl. now rewrite !Z.eqb_refl.
Qed.

(** X11. A caller with role 'teacher' who has a Teacher profile lists exactly
    the assessments whose [teacher] is that profile, the attendance rows it
    marked, the submissions to its assessments, and the timetable rows of
    the subjects it teaches. *)
Theorem teacher_lists_own_rows (db : DB) (user : User.t) (teacher : Teacher.t) :
  User.role user = "teacher" ->
  Teacher_objects_get db user = Ok teacher ->
  exists asms atts subs tts,
    AssessmentViewSet.get_queryset db user = Ok asms
    /\ AttendanceViewSet.get_queryset db user = Ok atts
    /\ SubmissionViewSet.get_queryset db user = Ok subs
    /\ TimetableViewSet.get_queryset db user = Ok tts
    /\ (forall a, In a asms <->
                  In a (assessments db) /\ Assessment.teacher a = Teacher.id teacher)
    /\ (forall a, In a atts <->
                  In a (attendances db)
                  /\ Attendance.marked_by (Attendance.data a) = Teacher.id teacher)
    /\ (forall s, In s subs <->
                  In s (submissions db)
                  /\ exists a, In a (assessments db)
                               /\ Assessment.id a = Submission.assessment (Submission.data s)
                               /\ Assessment.teacher a = Teacher.id teacher)
    /\ (forall t, In t tts <->
                  In t (timetables db)
                  /\ exists s, In s (subjects db)
                               /\ Subject.id s = Timetable.subject t
                               /\ In (Teacher.id teacher, Subject.id s)
                                     (teacher_subjects db)).
Proof.
  intros Hrole Hget.
  unfold AssessmentViewSet.get_queryset, AttendanceViewSet.get_queryset,
    SubmissionViewSet.get_queryset, TimetableViewSet.get_queryset.
  rewrite Hrole, Hget. simpl. do 4 eexists.
  do 4 (split; [reflexivity|]). unfold QuerySet.filter.
  split; [|split; [|split]]; intros x; rewrite filter_In.
  - now rewrite Z.eqb_eq.
  - now rewrite Z.eqb_eq.
  - now rewrite assessment_has_teacher_iff.
  - now rewrite teaches_subject_iff.
Qed.

Lemma teacher_lists_own_rows_witness :
  exists asms atts subs tts,
    AssessmentViewSet.get_queryset Sample.school Sample.teacher_1 = Ok asms
    /\ AttendanceViewSet.get_queryset Sample.school Sample.teacher_1 = Ok atts
    /\ SubmissionViewSet.get_queryset Sample.school Sample.teacher_1 = Ok subs
    /\ TimetableViewSet.get_queryset Sample.school Sample.teacher_1 = Ok tts
    /\ (forall a, In a asms <->
                  In a (assessments Sample.school) /\ Assessment.teacher a = 1)
    /\ (forall a, In a atts <->
                  In a (attendances Sample.school)
                  /\ Attendance.marked_by (Attendance.data a) = 1)
    /\ (forall s, In s subs <->
                  In s (submissions Sample.school)
                  /\ exists a, In a (assessments Sample.school)
                               /\ Assessment.id a = Submission.assessment (Submission.data s)
                               /\ Assessment.teacher a = 1)
    /\ (forall t, In t tts <->
                  In t (timetables Sample.school)
                  /\ exists s, In s (subjects Sample.school)
                               /\ Subject.id s = Timetable.subject t
                               /\ In (1, Subject.id s) (teacher_subjects Sample.school)).
Proof.
  apply (teacher_lists_own_rows Sample.school Sample.teacher_1
           (Sample.mk_teacher 1 2)); reflexivity.
Defined.

(** X12. A caller whose role is none of 'student', 'teacher' and 'parent'
    (an admin or a principal, say) lists every row of every table: the nine
    role-aware listings are unrestricted for such a caller. *)
Theorem other_roles_list_everything (db : DB) (user : User.t) :
  User.role user <> "student" ->
  User.role user <> "teacher" ->
  User.role user <> "parent" ->
  (forall r, list_rows r db user = Ok (table r db))
  /\ TeacherViewSet.get_queryset db user = Ok (teachers db)
  /\ ParentViewSet.get_queryset db user = Ok (parents db).
Proof.
  intros Hs Ht Hp. apply String.eqb_neq in Hs, Ht, Hp.
  split; [|split].
  - intros r. destruct r; simpl;
      cbv beta delta [StudentViewSet.get_queryset TimetableViewSet.get_queryset
                      ContentViewSet.get_queryset AssessmentViewSet.get_queryset
                      SubmissionViewSet.get_queryset AttendanceViewSet.get_queryset
                      FeePaymentViewSet.get_queryset];
      now rewrite ?Hs, ?Ht, ?Hp.
  - unfold TeacherViewSet.get_queryset. now rewrite Ht.
  - unfold ParentViewSet.get_queryset. now rewrite Hp.
Qed.

Lemma other_roles_list_everything_witness :
  list_rows SubmissionList Sample.school Sample.admin
  = Ok (submissions Sample.school)
  /\ list_rows FeePaymentList Sample.school Sample.admin
     = Ok (fee_payments Sample.school).
Proof.
  destruct (other_roles_list_everything Sample.school Sample.admin
              ltac:(discriminate) ltac:(discriminate) ltac:(discriminate))
    as [Hall _].
  split; apply Hall.
Defined.

Lemma profile_get_under_constraint (db : DB) (user : User.t) :
  one_profile_per_user db ->
  (Student_objects_get db user = Raise (DoesNotExist StudentModel)
   \/ exists s, Student_objects_get db user = Ok s)
  /\ (Teacher_objects_get db user = Raise (DoesNotExist TeacherModel)
      \/ exists t, Teacher_objects_get db user = Ok t)
  /\ (Parent_objects_get db user = Raise (DoesNotExist ParentModel)
      \/ exists p, Parent_objects_get db user = Ok p).
Proof.
  intros [Hs [Ht Hp]]. split; [|split].
  - apply (get_under_unique_key StudentModel Student.user). exact Hs.
  - apply (get_under_unique_key TeacherModel Teacher.user). exact Ht.
  - apply (get_under_unique_key ParentModel Parent.user). exact Hp.
Qed.

(** X13. While every user has at most one profile of each kind, no listing
    and no dashboard raises: each of the seven role-scoped listings returns
    rows, and each role dashboard answers with status 200 or 404. *)
Theorem no_errors_with_one_profile_per_user (now : Z) (db : DB) (user : User.t) :
  one_profile_per_user db ->
  (forall r, exists rows, list_rows r db user = Ok rows)
  /\ (exists resp, teacher_dashboard now db user = Ok resp
                   /\ (status resp = 200 \/ status resp = 404))
  /\ (exists resp, student_dashboard now db user = Ok resp
                   /\ (status resp = 200 \/ status resp = 404))
  /\ (exists resp, parent_dashboard db user = Ok resp
                   /\ (status resp = 200 \/ status resp = 404)).
Proof.
  intros H.
  destruct (profile_get_under_constraint db user H) as [Hs [Ht Hp]].
  split; [|split; [|split]].
  - intros r. destruct r; simpl;
      cbv beta delta [StudentViewSet.get_queryset TimetableViewSet.get_queryset
                      ContentViewSet.get_queryset AssessmentViewSet.get_queryset
                      SubmissionViewSet.get_queryset AttendanceViewSet.get_queryset
                      FeePaymentViewSet.get_queryset];
      repeat match goal with
             | |- context [String.eqb ?a ?b] => destruct (String.eqb a b)
             end;
      first [ eexists; reflexivity
            | destruct Hs as [Hs|[x Hs]]; rewrite Hs; simpl; eexists; reflexivity
            | destruct Ht as [Ht|[x Ht]]; rewrite Ht; simpl; eexists; reflexivity
            | destruct Hp as [Hp|[x Hp]]; rewrite Hp; simpl; eexists; reflexivity ].
  - unfold teacher_dashboard.
    destruct Ht as [Ht|[x Ht]]; rewrite Ht; simpl; eexists;
      (split; [reflexivity|]); simpl; auto.
  - unfold student_dashboard.
    destruct Hs as [Hs|[x Hs]]; rewrite Hs; simpl; eexists;
      (split; [reflexivity|]); simpl; auto.
  - unfold parent_dashboard.
    destruct Hp as [Hp|[x Hp]]; rewrite Hp; simpl; eexists;
      (split; [reflexivity|]); simpl; auto.
Qed.

Lemma one_profile_per_user_sample : one_profile_per_user Sample.school.
Proof.
  unfold one_profile_per_user. simpl.
  repeat split; repeat (constructor; [simpl; intuition discriminate|]);
    constructor.
Defined.

Lemma no_errors_with_one_profile_per_user_witness :
  (forall r, exists rows, list_rows r Sample.school Sample.parent_user = Ok rows)
  /\ (exists resp, teacher_dashboard 0 Sample.school Sample.parent_user = Ok resp
                   /\ (status resp = 200 \/ status resp = 404)).
Proof.
  destruct (no_errors_with_one_profile_per_user 0 Sample.school Sample.parent_user
              one_profile_per_user_sample) as [Hlist [Hteacher _]].
  split; assumption.
Defined.

(** The constraint matters: with two Student rows for one user the listing
    raises and no handler catches it. *)
Example duplicate_profile_raises :
  let db := {| users := []; students := [Sample.student_a; Sample.student_a];
               teachers := []; parents := []; academic_years := [];
               classes := []; subjects := []; teacher_subjects := [];
               timetables := []; contents := []; assessments := [];
               submissions := []; attendances := []; fee_payments := [];
               announcements := [] |} in
  TimetableViewSet.get_queryset db Sample.student_a_user
  = Raise (MultipleObjectsReturned StudentModel).
Proof. reflexivity. Qed.

(** ** Creating rows *)

(** X14. When a caller with role 'student' creates a submission, the stored
    row carries the caller's own Student profile whichever student the
    payload named; it joins the caller's listing and the listing of the
    teacher who owns the assessment.  A further create by the caller for the
    same assessment stores nothing, whatever the serializer's validation
    does: the endpoint answers 400, or the insert raises [IntegrityError]. *)
Theorem submission_create_then_list
  (now : Z) (db db' : DB) (user : User.t) (d : Submission.fields) :
  User.role user = "student" ->
  SubmissionViewSet.perform_create now db user d = Ok db' ->
  exists student row before,
    Student_objects_get db user = Ok student
    /\ submissions db' = submissions db ++ [row]
    /\ Submission.student (Submission.data row) = Student.id student
    /\ Submission.assessment (Submission.data row) = Submission.assessment d
    /\ SubmissionViewSet.get_queryset db user = Ok before
    /\ SubmissionViewSet.get_queryset db' user = Ok (before ++ [row])
    /\ (forall viewer teacher,
          User.role viewer = "teacher" ->
          Teacher_objects_get db viewer = Ok teacher ->
          assessment_has_teacher db (Submission.assessment d) teacher = true ->
          exists rows,
            SubmissionViewSet.get_queryset db' viewer = Ok rows /\ In row rows)
    /\ (forall (Payload : Type)
               (is_valid : DB -> Payload -> option Submission.fields)
               (now' : Z) (payload : Payload),
          (forall d', is_valid db' payload = Some d' ->
                      Submission.assessment d' = Submission.assessment d) ->
          create is_valid (SubmissionViewSet.perform_create now') db' user payload
          = Ok (db', 400)
          \/ create is_valid (SubmissionViewSet.perform_create now') db' user payload
             = Raise IntegrityError).
Proof.
  intros Hrole Hcreate.
  pose proof Hcreate as Htwice.
  unfold SubmissionViewSet.perform_create in Hcreate. rewrite Hrole in Hcreate.
  simpl in Hcreate.
  destruct (Student_objects_get db user) as [student|e] eqn:Hget; simpl in Hcreate;
    [|discriminate].
  apply Submission_objects_create_Ok in Hcreate as [_ [row [Hd [_ ->]]]].
  exists student, row.
  exists (QuerySet.filter
            (fun s => Submission.student (Submission.data s) =? Student.id student)
            (submissions db)).
  split; [reflexivity|]. split; [reflexivity|].
  split; [now rewrite Hd|]. split; [now rewrite Hd|].
  unfold SubmissionViewSet.get_queryset. rewrite Hrole. simpl.
  change (Student_objects_get
            (set_submissions db (submissions db ++ [row])) user)
    with (Student_objects_get db user).
  rewrite Hget. simpl. split; [reflexivity|]. split.
  - unfold QuerySet.filter. rewrite filter_app. simpl.
    rewrite Hd. simpl. now rewrite Z.eqb_refl.
  - split.
    + intros viewer teacher Hteacher Htget Howns.
      unfold SubmissionViewSet.get_queryset. rewrite Hteacher. simpl.
      change (Teacher_objects_get
                (set_submissions db (submissions db ++ [row])) viewer)
        with (Teacher_objects_get db viewer).
      rewrite Htget. simpl. eexists. split; [reflexivity|].
      unfold QuerySet.filter. apply filter_In. split.
      * apply in_or_app. right. now left.
      * rewrite Hd. exact Howns.
    + intros Payload is_valid now' payload Hsame. unfold create.
      destruct (is_valid (set_submissions db (submissions db ++ [row])) payload)
        as [d'|] eqn:Hvalid; [right|now left].
      rewrite (SubmissionViewSet_perform_create_twice now now' d d' db _ user
                 Hrole Htwice (Hsame d' eq_refl)).
      reflexivity.
Qed.

Lemma submission_create_then_list_witness :
  let db' :=
    commit Sample.school
      (SubmissionViewSet.perform_create 50 Sample.school Sample.student_a_user
         (Sample.mk_submission 1 2)) in
  let unique_together :=
    fun (db : DB) (p : Submission.fields) =>
      if existsb (same_submission_key p) (submissions db) then None else Some p in
  exists row,
    Submission.student (Submission.data row) = 1
    /\ SubmissionViewSet.get_queryset db' Sample.student_a_user = Ok [row]
    /\ create unique_together (SubmissionViewSet.perform_create 51) db'
         Sample.student_a_user (Sample.mk_submission 1 1) = Ok (db', 400)
    /\ create unique_together (SubmissionViewSet.perform_create 51) db'
         Sample.student_a_user (Sample.mk_submission 1 2) = Raise IntegrityError.
Proof.
  intros db' unique_together.
  destruct (submission_create_then_list 50 Sample.school db'
              Sample.student_a_user (Sample.mk_submission 1 2) eq_refl eq_refl)
    as [student [row [before [Hget [_ [Hst [_ [Hbefore [Hafter [_ Htwice]]]]]]]]]].
  exists row.
  injection Hget as <-. injection Hbefore as <-.
  split; [exact Hst|]. split; [exact Hafter|]. split.
  - destruct (Htwice _ unique_together 51 (Sample.mk_submission 1 1)) as [H|H].
    + intros d' Hd'. discriminate Hd'.
    + exact H.
    + discriminate H.
  - destruct (Htwice _ unique_together 51 (Sample.mk_submission 1 2)) as [H|H].
    + intros d' [= <-]. reflexivity.
    + discriminate H.
    + exact H.
Defined.

(** What a successful [Attendance.objects.create] did. *)
Lemma Attendance_objects_create_Ok (d : Attendance.fields) (db db' : DB) :
  Attendance_objects_create d db = Ok db' ->
  existsb (same_attendance_key d) (attendances db) = false
  /\ exists row,
       Attendance.data row = d
       /\ db' = set_attendances db (attendances db ++ [row]).
Proof.
  unfold Attendance_objects_create.
  destruct (existsb (same_attendance_key d) (attendances db)); [discriminate|].
  destruct (negb _); [discriminate|].
  intros [= <-]. split; [reflexivity|].
  exists {| Attendance.id := next_pk (map Attendance.id (attendances db));
            Attendance.data := d |}.
  split; reflexivity.
Qed.

Lemma same_attendance_key_iff (d : Attendance.fields) (a : Attendance.t) :
  same_attendance_key d a = true
  <-> attendance_key a = (Attendance.student d, Attendance.date d).
Proof.
  unfold same_attendance_key, attendance_key. rewrite andb_true_iff, !Z.eqb_eq.
  split; [intros [-> ->]; reflexivity|intros [= -> ->]; now split].
Qed.

(** X15. When a caller with role 'teacher' marks attendance, the stored row
    has [marked_by] equal to the caller's own Teacher profile whichever
    teacher the payload named; the student then has one attendance row more;
    and a table with one row per (student, date) stays so.  A further create
    for the same student and date stores nothing: the endpoint answers 400
    or the insert raises [IntegrityError], and it answers 400 whenever the
    serializer's validation turns down a (student, date) that is stored. *)
Theorem attendance_mark_once
  (db db' : DB) (user : User.t) (d : Attendance.fields) :
  User.role user = "teacher" ->
  AttendanceViewSet.perform_create db user d = Ok db' ->
  exists teacher row,
    Teacher_objects_get db user = Ok teacher
    /\ attendances db' = attendances db ++ [row]
    /\ Attendance.data row = Attendance.with_marked_by d (Teacher.id teacher)
    /\ Attendance.marked_by (Attendance.data row) = Teacher.id teacher
    /\ (forall student,
          Student.id student = Attendance.student d ->
          List.length (attendance_of db' student)
          = S (List.length (attendance_of db student)))
    /\ (attendances_unique db -> attendances_unique db')
    /\ (forall (Payload : Type)
               (is_valid : DB -> Payload -> option Attendance.fields)
               (payload : Payload),
          (forall d', is_valid db' payload = Some d' ->
                      Attendance.student d' = Attendance.student d
                      /\ Attendance.date d' = Attendance.date d) ->
          (create is_valid AttendanceViewSet.perform_create db' user payload
           = Ok (db', 400)
           \/ create is_valid AttendanceViewSet.perform_create db' user payload
              = Raise IntegrityError)
          /\ ((forall d', is_valid db' payload = Some d' ->
                          existsb (same_attendance_key d') (attendances db') = false) ->
              create is_valid AttendanceViewSet.perform_create db' user payload
              = Ok (db', 400))).
Proof.
  intros Hrole. unfold AttendanceViewSet.perform_create. rewrite Hrole. simpl.
  destruct (Teacher_objects_get db user) as [teacher|e] eqn:Hget; simpl;
    [|discriminate].
  intros H. apply Attendance_objects_create_Ok in H as [Hfree [row [Hd ->]]].
  exists teacher, row.
  split; [reflexivity|]. split; [reflexivity|]. split; [exact Hd|].
  split; [now rewrite Hd|].
  assert (Hrow : forall d' k,
            Attendance.student d' = Attendance.student d ->
            Attendance.date d' = Attendance.date d ->
            same_attendance_key (Attendance.with_marked_by d' k) row = true).
  { intros d' k Hs Hdate. unfold same_attendance_key. rewrite Hd. simpl.
    now rewrite Hs, Hdate, !Z.eqb_refl. }
  split; [|split].
  - intros student Hst. rewrite attendance_of_append, length_app. simpl.
    rewrite Hd. simpl. rewrite <- Hst, Z.eqb_refl. simpl. lia.
  - unfold attendances_unique. simpl. intros Hnd.
    rewrite map_app. simpl. apply NoDup_snoc; [exact Hnd|].
    intros Hin. apply in_map_iff in Hin as [a [Hk Ha]].
    assert (Hx : existsb
                   (same_attendance_key
                      (Attendance.with_marked_by d (Teacher.id teacher)))
                   (attendances db) = true).
    { apply existsb_exists. exists a. split; [exact Ha|].
      apply same_attendance_key_iff. rewrite Hk. unfold attendance_key.
      now rewrite Hd. }
    congruence.
  - intros Payload is_valid payload Hsame. unfold create.
    destruct (is_valid (set_attendances db (attendances db ++ [row])) payload)
      as [d'|] eqn:Hvalid.
    + destruct (Hsame d' eq_refl) as [Hs Hdate]. split.
      * right. rewrite Hrole. simpl.
        change (Teacher_objects_get
                  (set_attendances db (attendances db ++ [row])) user)
          with (Teacher_objects_get db user).
        rewrite Hget. simpl. unfold Attendance_objects_create. simpl.
        rewrite existsb_app. simpl. rewrite (Hrow d' _ Hs Hdate).
        now rewrite orb_true_r.
      * intros Hunique. specialize (Hunique d' eq_refl). simpl in Hunique.
        rewrite existsb_app in Hunique. simpl in Hunique.
        assert (Hkey : same_attendance_key d' row = true).
        { unfold same_attendance_key. rewrite Hd. simpl.
          now rewrite Hs, Hdate, !Z.eqb_refl. }
        rewrite Hkey, orb_true_r in Hunique. discriminate Hunique.
    + split; [now left|reflexivity].
Qed.

Lemma attendance_mark_once_witness :
  let d := {| Attendance.student := 2; Attendance.date := 30;
              Attendance.status := "present"; Attendance.marked_by := 2;
              Attendance.class_obj := 2 |} in
  let db' :=
    commit Sample.school
      (AttendanceViewSet.perform_create Sample.school Sample.teacher_1 d) in
  let unique_together :=
    fun (db : DB) (p : Attendance.fields) =>
      if existsb (same_attendance_key p) (attendances db) then None else Some p in
  exists row,
    attendances db' = attendances Sample.school ++ [row]
    /\ Attendance.marked_by (Attendance.data row) = 1
    /\ create unique_together AttendanceViewSet.perform_create db'
         Sample.teacher_1 d = Ok (db', 400).
Proof.
  intros d db' unique_together.
  destruct (attendance_mark_once Sample.school db' Sample.teacher_1 d
              eq_refl eq_refl)
    as [teacher [row [Hget [Hrows [_ [Hby [_ [_ Htwice]]]]]]]].
  exists row. injection Hget as <-.
  split; [exact Hrows|]. split; [exact Hby|].
  apply (Htwice _ unique_together d).
  - intros d' Hd'. discriminate Hd'.
  - intros d' Hd'. discriminate Hd'.
Defined.

(** X16. Content a caller with role 'teacher' uploads is from then on listed
    to every student of the grade the payload names, after the rows the
    student was listed before, and to no student of another grade. *)
Theorem content_upload_listed_by_grade
  (now : Z) (db db' : DB) (user : User.t) (d : Content.fields) :
  User.role user = "teacher" ->
  ContentViewSet.perform_create now db user d = Ok db' ->
  exists row,
    contents db' = contents db ++ [row]
    /\ Content.grade (Content.data row) = Content.grade d
    /\ forall viewer student,
         User.role viewer = "student" ->
         Student_objects_get db viewer = Ok student ->
         exists before,
           ContentViewSet.get_queryset db viewer = Ok before
           /\ ContentViewSet.get_queryset db' viewer
              = Ok (before
                    ++ if String.eqb (Content.grade d) (Student.grade student)
                       then [row] else []).
Proof.
  intros Hrole Hcreate.
  apply (ContentViewSet_perform_create_teacher now db db' user d Hrole) in Hcreate
    as [teacher [row [_ [Hd [_ ->]]]]].
  exists row. split; [reflexivity|]. split; [now rewrite Hd|].
  intros viewer student Hviewer Hget.
  unfold ContentViewSet.get_queryset. rewrite Hviewer. simpl.
  change (Student_objects_get (set_contents db (contents db ++ [row])) viewer)
    with (Student_objects_get db viewer).
  rewrite Hget. simpl. eexists. split; [reflexivity|].
  unfold QuerySet.filter. rewrite filter_app. simpl. rewrite Hd. simpl.
  now destruct (String.eqb (Content.grade d) (Student.grade student)).
Qed.

Lemma content_upload_listed_by_grade_witness :
  let d := Sample.mk_content "Decimals" "Grade 2" 2 in
  let db' :=
    commit Sample.school
      (ContentViewSet.perform_create 70 Sample.school Sample.teacher_1 d) in
  ContentViewSet.get_queryset db' Sample.student_a_user = Ok [Sample.notes]
  /\ exists row,
       ContentViewSet.get_queryset db' Sample.student_b_user = Ok [row].
Proof.
  intros d db'.
  destruct (content_upload_listed_by_grade 70 Sample.school db' Sample.teacher_1 d
              eq_refl eq_refl) as [row [_ [_ Hlisted]]].
  split.
  - destruct (Hlisted Sample.student_a_user Sample.student_a eq_refl eq_refl)
      as [before [Hbefore Hafter]].
    injection Hbefore as <-. exact Hafter.
  - exists row.
    destruct (Hlisted Sample.student_b_user Sample.student_b eq_refl eq_refl)
      as [before [Hbefore Hafter]].
    injection Hbefore as <-. exact Hafter.
Defined.

(** X17. Creating is not forgiving where listing is: a caller with role
    'teacher' and no Teacher row who creates Content or Attendance, and a
    caller with role 'student' and no Student row who creates a Submission,
    makes [perform_create] raise [DoesNotExist]; the create endpoint passes
    the exception on for every payload that validates, and nothing is
    stored. *)
Theorem create_without_profile_raises (now : Z) (db : DB) (user : User.t) :
  lacks_profile db user = true ->
  (User.role user = "teacher" ->
   (forall d, ContentViewSet.perform_create now db user d
              = Raise (DoesNotExist TeacherModel))
   /\ (forall d, AttendanceViewSet.perform_create db user d
                 = Raise (DoesNotExist TeacherModel))
   /\ (forall (Payload : Type) (is_valid : DB -> Payload -> option Content.fields)
              (payload : Payload) (d : Content.fields),
         is_valid db payload = Some d ->
         create is_valid (ContentViewSet.perform_create now) db user payload
         = Raise (DoesNotExist TeacherModel)))
  /\ (User.role user = "student" ->
      (forall d, SubmissionViewSet.perform_create now db user d
                 = Raise (DoesNotExist StudentModel))
      /\ (forall (Payload : Type) (is_valid : DB -> Payload -> option Submission.fields)
                 (payload : Payload) (d : Submission.fields),
            is_valid db payload = Some d ->
            create is_valid (SubmissionViewSet.perform_create now) db user payload
            = Raise (DoesNotExist StudentModel))).
Proof.
  intros H. split; intros Hrole.
  - pose proof (lacking_teacher db user Hrole H) as Hget.
    assert (Hc : forall d, ContentViewSet.perform_create now db user d
                           = Raise (DoesNotExist TeacherModel)).
    { intros d. unfold ContentViewSet.perform_create. now rewrite Hrole, Hget. }
    split; [exact Hc|]. split.
    + intros d. unfold AttendanceViewSet.perform_create. now rewrite Hrole, Hget.
    + intros Payload is_valid payload d Hvalid. unfold create.
      now rewrite Hvalid, Hc.
  - pose proof (lacking_student db user Hrole H) as Hget.
    assert (Hs : forall d, SubmissionViewSet.perform_create now db user d
                           = Raise (DoesNotExist StudentModel)).
    { intros d. unfold SubmissionViewSet.perform_create. now rewrite Hrole, Hget. }
    split; [exact Hs|].
    intros Payload is_valid payload d Hvalid. unfold create.
    now rewrite Hvalid, Hs.
Qed.

Lemma create_without_profile_raises_witness :
  ContentViewSet.perform_create 70 Sample.school Sample.teacher_without_profile
    (Sample.mk_content "Decimals" "Grade 1" 2)
  = Raise (DoesNotExist TeacherModel)
  /\ SubmissionViewSet.perform_create 70 Sample.school
       Sample.student_without_profile (Sample.mk_submission 1 1)
     = Raise (DoesNotExist StudentModel).
Proof.
  split.
  - apply (create_without_profile_raises 70 Sample.school
             Sample.teacher_without_profile eq_refl); reflexivity.
  - apply (create_without_profile_raises 70 Sample.school
             Sample.student_without_profile eq_refl); reflexivity.
Defined.

(** ** Dashboards and listings *)

(** The slices [[:5]] are kept folded in the proofs below. *)
#[local] Arguments firstn : simpl never.

Lemma In_firstn {A : Type} (n : nat) (l : list A) (x : A) :
  In x (firstn n l) -> In x l.
Proof.
  revert l. induction n as [|n IH]; intros [|y l]; simpl; try contradiction.
  intros [->|H]; [now left|right; now apply IH].
Qed.

Lemma existsb_filter {A : Type} (f g : A -> bool) (l : list A) :
  existsb f (List.filter g l) = existsb (fun x => f x && g x) l.
Proof.
  induction l as [|x l IH]; simpl; [reflexivity|].
  destruct (g x); simpl; rewrite IH; [now rewrite andb_true_r|].
  now rewrite andb_false_r.
Qed.

Lemma slice_length {A : Type} (n : nat) (l : list A) :
  (List.length (QuerySet.slice n l) <= n)%nat.
Proof. apply firstn_le_length. Qed.

Lemma In_slice {A : Type} (n : nat) (l : list A) (x : A) :
  In x (QuerySet.slice n l) -> In x l.
Proof. apply In_firstn. Qed.

Lemma slice_all {A : Type} (n : nat) (l : list A) (x : A) :
  (List.length l <= n)%nat -> In x l -> In x (QuerySet.slice n l).
Proof. intros H Hin. unfold QuerySet.slice. now rewrite firstn_all2. Qed.

(** X18. The student dashboard of a caller with role 'student' and a Student
    profile answers 200 and shows what the listings give that caller: the
    rows of the timetable listing; at most five assessments, each one listed
    to the caller and scheduled from now on, and all of those when they are
    at most five; the first five rows of the content listing; and the
    percentage of [calculate_attendance_percentage]. *)
Theorem student_dashboard_agrees_with_listings
  (now : Z) (db : DB) (user : User.t) (student : Student.t) :
  User.role user = "student" ->
  Student_objects_get db user = Ok student ->
  exists d tts asms cons,
    student_dashboard now db user = Ok {| data := Data d; status := 200 |}
    /\ TimetableViewSet.get_queryset db user = Ok tts
    /\ AssessmentViewSet.get_queryset db user = Ok asms
    /\ ContentViewSet.get_queryset db user = Ok cons
    /\ student_info d = student
    /\ (forall t, In t (timetable d) <-> In t tts)
    /\ (List.length (upcoming_assessments d) <= 5)%nat
    /\ (forall a, In a (upcoming_assessments d) ->
                  In a asms /\ now <= Assessment.scheduled_date a)
    /\ ((List.length
           (List.filter (fun a => (now <=? Assessment.scheduled_date a)%Z) asms)
         <= 5)%nat ->
        forall a, In a asms -> now <= Assessment.scheduled_date a ->
                  In a (upcoming_assessments d))
    /\ recent_content d = firstn 5 cons
    /\ attendance_percentage d = calculate_attendance_percentage db student.
Proof.
  intros Hrole Hget.
  unfold student_dashboard, TimetableViewSet.get_queryset,
    AssessmentViewSet.get_queryset, ContentViewSet.get_queryset.
  rewrite Hrole, Hget. simpl. do 4 eexists.
  do 4 (split; [reflexivity|]).
  cbn [student_info timetable upcoming_assessments recent_content
       attendance_percentage].
  split; [reflexivity|]. split; [reflexivity|].
  split; [apply slice_length|]. split; [|split].
  - intros a Ha. apply In_slice in Ha. unfold QuerySet.filter in Ha.
    rewrite filter_and in Ha. apply filter_In in Ha as [Hin Ha].
    split; [exact Hin|now apply Z.leb_le].
  - intros Hlen a Hin Ha. apply slice_all.
    + unfold QuerySet.filter. now rewrite filter_and.
    + unfold QuerySet.filter. rewrite filter_and.
      apply filter_In. split; [exact Hin|now apply Z.leb_le].
  - split; reflexivity.
Qed.

Lemma student_dashboard_agrees_with_listings_witness :
  exists d tts,
    student_dashboard 0 Sample.school Sample.student_a_user
    = Ok {| data := Data d; status := 200 |}
    /\ TimetableViewSet.get_queryset Sample.school Sample.student_a_user = Ok tts
    /\ (forall t, In t (timetable d) <-> In t tts)
    /\ In Sample.quiz (upcoming_assessments d)
    /\ attendance_percentage d
       = calculate_attendance_percentage Sample.school Sample.student_a.
Proof.
  destruct (student_dashboard_agrees_with_listings 0 Sample.school
              Sample.student_a_user Sample.student_a eq_refl eq_refl)
    as [d [tts [asms [cons
         [Hd [Htts [Hasms [_ [_ [Ht [_ [_ [Hall [_ Hp]]]]]]]]]]]]]].
  exists d, tts. injection Hasms as <-.
  split; [exact Hd|]. split; [exact Htts|]. split; [exact Ht|].
  split; [|exact Hp].
  apply Hall.
  - simpl. lia.
  - simpl. now left.
  - simpl. lia.
Defined.

(** X19. The parent dashboard of a caller with role 'parent' and a Parent
    profile answers 200 and shows as children the caller's Student listing,
    one attendance entry per child in the same order, each with that child's
    percentage, and as unpaid fees exactly the rows of the caller's
    FeePayment listing that are not paid. *)
Theorem parent_dashboard_agrees_with_listings
  (db : DB) (user : User.t) (parent : Parent.t) :
  User.role user = "parent" ->
  Parent_objects_get db user = Ok parent ->
  exists d kids pays,
    parent_dashboard db user = Ok {| data := Data d; status := 200 |}
    /\ StudentViewSet.get_queryset db user = Ok kids
    /\ FeePaymentViewSet.get_queryset db user = Ok pays
    /\ parent_info d = parent
    /\ children d = kids
    /\ children_attendance d
       = map (fun child => (child, calculate_attendance_percentage db child)) kids
    /\ (forall p, In p (unpaid_fees d) <->
                  In p pays /\ FeePayment.is_paid p = false).
Proof.
  intros Hrole Hget.
  unfold parent_dashboard, StudentViewSet.get_queryset,
    FeePaymentViewSet.get_queryset.
  rewrite Hrole, Hget. simpl. do 3 eexists.
  do 3 (split; [reflexivity|]). simpl.
  do 3 (split; [reflexivity|]).
  intros p. unfold QuerySet.filter. rewrite !filter_In.
  rewrite andb_true_iff, negb_true_iff.
  unfold student_in, has_pk, student_has_parent, QuerySet.filter.
  rewrite existsb_filter. tauto.
Qed.

Lemma parent_dashboard_agrees_with_listings_witness :
  exists d,
    parent_dashboard Sample.school Sample.parent_user
    = Ok {| data := Data d; status := 200 |}
    /\ children d = [Sample.student_a]
    /\ In (Sample.mk_payment 1 1 false) (unpaid_fees d)
    /\ ~ In (Sample.mk_payment 2 2 false) (unpaid_fees d).
Proof.
  destruct (parent_dashboard_agrees_with_listings Sample.school
              Sample.parent_user (Sample.mk_parent 1 6) eq_refl eq_refl)
    as [d [kids [pays [Hd [Hkids [Hpays [_ [Hc [_ Hu]]]]]]]]].
  exists d. split; [exact Hd|].
  injection Hkids as <-. injection Hpays as <-.
  split; [exact Hc|]. split.
  - apply Hu. split; [simpl; now left|reflexivity].
  - intros Hin. apply Hu in Hin as [[Hin|[]] _]. discriminate Hin.
Defined.

(** X20. The teacher dashboard of a caller with role 'teacher' and a Teacher
    profile shows the first five of the caller's listed assessments that are
    scheduled from now on, and as recent content at most five stored rows,
    each uploaded by the caller; the status is 200. *)
Theorem teacher_dashboard_shows_own_rows
  (now : Z) (db : DB) (user : User.t) (teacher : Teacher.t) :
  User.role user = "teacher" ->
  Teacher_objects_get db user = Ok teacher ->
  exists d asms,
    teacher_dashboard now db user = Ok {| data := Data d; status := 200 |}
    /\ AssessmentViewSet.get_queryset db user = Ok asms
    /\ teacher_info d = teacher
    /\ assigned_subjects d = Teacher_subjects_all db teacher
    /\ teacher_upcoming_assessments d
       = firstn 5 (List.filter (fun a => now <=? Assessment.scheduled_date a) asms)
    /\ (List.length (teacher_recent_content d) <= 5)%nat
    /\ (forall c, In c (teacher_recent_content d) ->
                  In c (contents db)
                  /\ Content.uploaded_by (Content.data c) = Teacher.id teacher).
Proof.
  intros Hrole Hget.
  unfold teacher_dashboard, AssessmentViewSet.get_queryset.
  rewrite Hrole, Hget. simpl. do 2 eexists.
  do 2 (split; [reflexivity|]). simpl.
  split; [reflexivity|]. split; [reflexivity|].
  unfold QuerySet.slice, QuerySet.filter.
  split; [now rewrite filter_and|]. split; [apply firstn_le_length|].
  intros c Hc. apply In_firstn in Hc. apply filter_In in Hc as [Hin Hc].
  split; [exact Hin|now apply Z.eqb_eq].
Qed.

Lemma teacher_dashboard_shows_own_rows_witness :
  exists d,
    teacher_dashboard 0 Sample.school Sample.teacher_2
    = Ok {| data := Data d; status := 200 |}
    /\ forall c, In c (teacher_recent_content d) ->
                 In c (contents Sample.school)
                 /\ Content.uploaded_by (Content.data c) = 2.
Proof.
  destruct (teacher_dashboard_shows_own_rows 0 Sample.school Sample.teacher_2
              (Sample.mk_teacher 2 3) eq_refl eq_refl)
    as [d [asms [Hd [_ [_ [_ [_ [_ Hown]]]]]]]].
  exists d. split; [exact Hd|exact Hown].
Defined.

(** X21. The admin dashboard answers every caller, whatever the role, with
    status 200.  Its counts are the sizes of the tables; the active academic
    year is missing exactly when no stored year is active and is otherwise a
    stored, active year; the announcements shown are at most five, each
    stored and active, and all the active ones when there are at most
    five. *)
Theorem admin_dashboard_contents (db : DB) (user : User.t) :
  exists d,
    admin_dashboard db user = {| data := Data d; status := 200 |}
    /\ total_students d = Z.of_nat (List.length (students db))
    /\ total_teachers d = Z.of_nat (List.length (teachers db))
    /\ total_parents d = Z.of_nat (List.length (parents db))
    /\ total_classes d = Z.of_nat (List.length (classes db))
    /\ total_subjects d = Z.of_nat (List.length (subjects db))
    /\ (active_academic_year d = None <->
        forall y, In y (academic_years db) -> AcademicYear.is_active y = false)
    /\ (forall y, active_academic_year d = Some y ->
                  In y (academic_years db) /\ AcademicYear.is_active y = true)
    /\ (List.length (recent_announcements d) <= 5)%nat
    /\ (forall a, In a (recent_announcements d) ->
                  In a (announcements db) /\ Announcement.is_active a = true)
    /\ ((List.length (List.filter Announcement.is_active (announcements db)) <= 5)%nat ->
        recent_announcements d
        = List.filter Announcement.is_active (announcements db)).
Proof.
  exists {| total_students := QuerySet.count (students db);
            total_teachers := QuerySet.count (teachers db);
            total_parents := QuerySet.count (parents db);
            total_classes := QuerySet.count (classes db);
            total_subjects := QuerySet.count (subjects db);
            active_academic_year :=
              QuerySet.first
                (QuerySet.filter AcademicYear.is_active (academic_years db));
            recent_announcements :=
              firstn 5 (List.filter Announcement.is_active (announcements db)) |}.
  split.
  { unfold admin_dashboard, respond.
    destruct (QuerySet.filter AcademicYear.is_active (academic_years db));
      reflexivity. }
  cbn [total_students total_teachers total_parents total_classes total_subjects
       active_academic_year recent_announcements].
  do 5 (split; [reflexivity|]).
  unfold QuerySet.filter, QuerySet.first.
  split; [|split; [|split; [|split]]].
  - destruct (List.filter AcademicYear.is_active (academic_years db))
      as [|y l] eqn:E.
    + split; [|reflexivity]. intros _ y Hy.
      destruct (AcademicYear.is_active y) eqn:Ey; [|reflexivity].
      assert (Hin : In y (List.filter AcademicYear.is_active (academic_years db)))
        by (apply filter_In; now split).
      rewrite E in Hin. contradiction.
    + split; [discriminate|]. intros Hnone.
      assert (Hin : In y (List.filter AcademicYear.is_active (academic_years db)))
        by (rewrite E; now left).
      apply filter_In in Hin as [Hin Hy]. rewrite (Hnone y Hin) in Hy.
      discriminate.
  - intros y.
    destruct (List.filter AcademicYear.is_active (academic_years db))
      as [|y' l] eqn:E; [discriminate|].
    intros [= <-]. apply filter_In. rewrite E. now left.
  - apply firstn_le_length.
  - intros a Ha. apply In_firstn in Ha. now apply filter_In in Ha.
  - intros Hlen. now apply firstn_all2.
Qed.

(** ** The template dashboard and login *)

(** X22. The template dashboard never fails on a missing profile: for a
    caller whose role names a profile the caller lacks, and for a caller
    whose role is none of 'admin', 'teacher', 'student' and 'parent', the
    context is the empty dictionary (where the API dashboards answer
    404). *)
Theorem template_dashboard_empty (now : Z) (db : DB) (user : User.t) :
  (lacks_profile db user = true -> dashboard now db user = Ok NoData)
  /\ (User.role user <> "admin" -> User.role user <> "teacher" ->
      User.role user <> "student" -> User.role user <> "parent" ->
      dashboard now db user = Ok NoData).
Proof.
  split.
  - intros H. destruct (lacks_profile_role db user H) as [Hr|[Hr|Hr]];
      unfold dashboard; rewrite Hr; simpl.
    + now rewrite (lacking_student db user Hr H).
    + now rewrite (lacking_teacher db user Hr H).
    + now rewrite (lacking_parent db user Hr H).
  - intros Ha Ht Hs Hp. apply String.eqb_neq in Ha, Ht, Hs, Hp.
    unfold dashboard. now rewrite Ha, Ht, Hs, Hp.
Qed.

Lemma template_dashboard_empty_witness :
  dashboard 0 Sample.school Sample.student_without_profile = Ok NoData
  /\ dashboard 0 Sample.school (Sample.mk_user 10 "pia" "principal") = Ok NoData.
Proof.
  split.
  - apply (proj1 (template_dashboard_empty 0 Sample.school
                    Sample.student_without_profile)).
    reflexivity.
  - apply (proj2 (template_dashboard_empty 0 Sample.school
                    (Sample.mk_user 10 "pia" "principal"))); discriminate.
Defined.

(** X23. For a caller with role 'student', 'teacher' or 'parent' the template
    dashboard holds a record exactly when the API dashboard of that role
    answers 200 with that record; for an admin it holds the four counts the
    admin dashboard reports. *)
Theorem template_dashboard_agrees_with_api (now : Z) (db : DB) (user : User.t) :
  (User.role user = "student" ->
   forall d, student_dashboard now db user = Ok {| data := Data d; status := 200 |}
             <-> dashboard now db user = Ok (StudentData d))
  /\ (User.role user = "teacher" ->
      forall d, teacher_dashboard now db user = Ok {| data := Data d; status := 200 |}
                <-> dashboard now db user = Ok (TeacherData d))
  /\ (User.role user = "parent" ->
      forall d, parent_dashboard db user = Ok {| data := Data d; status := 200 |}
                <-> dashboard now db user = Ok (ParentData d))
  /\ (User.role user = "admin" ->
      exists d,
        data (admin_dashboard db user) = Data d
        /\ dashboard now db user
           = Ok (AdminData (total_students d) (total_teachers d)
                           (total_parents d) (total_classes d))).
Proof.
  split; [|split; [|split]]; intros Hrole.
  - intros d. unfold student_dashboard, dashboard. rewrite Hrole. simpl.
    destruct (Student_objects_get db user) as [s|[[]|[]|]]; simpl;
      (split; [intros [= <-]; reflexivity|intros H; try discriminate H]).
    injection H as <-. reflexivity.
  - intros d. unfold teacher_dashboard, dashboard. rewrite Hrole. simpl.
    destruct (Teacher_objects_get db user) as [t|[[]|[]|]]; simpl;
      (split; [intros [= <-]; reflexivity|intros H; try discriminate H]).
    injection H as <-. reflexivity.
  - intros d. unfold parent_dashboard, dashboard. rewrite Hrole. simpl.
    destruct (Parent_objects_get db user) as [p|[[]|[]|]]; simpl;
      (split; [intros [= <-]; reflexivity|intros H; try discriminate H]).
    injection H as <-. reflexivity.
  - eexists. split; [apply admin_dashboard_data|].
    unfold dashboard. now rewrite Hrole.
Qed.

Lemma template_dashboard_agrees_with_api_witness :
  exists d,
    student_dashboard 0 Sample.school Sample.student_a_user
    = Ok {| data := Data d; status := 200 |}
    /\ dashboard 0 Sample.school Sample.student_a_user = Ok (StudentData d).
Proof.
  eexists. split; [reflexivity|].
  apply (proj1 (template_dashboard_agrees_with_api 0 Sample.school
                  Sample.student_a_user)); reflexivity.
Defined.

(** X24. [login_view] answers 200 or 400.  It answers 200 exactly when both
    fields validate to non-empty strings that [authenticate] accepts for an
    active user; the response then carries that user and the token pair made
    for that user, so a disabled account never receives tokens. *)
Theorem login_view_succeeds_iff
  (Payload Tokens : Type)
  (run_fields : Payload -> option (string * string))
  (authenticate : string -> string -> option User.t)
  (for_user : User.t -> Tokens) (payload : Payload) :
  let answer := login_view run_fields authenticate for_user payload in
  (snd answer = 200 \/ snd answer = 400)
  /\ (snd answer = 200 <->
      exists username password user,
        run_fields payload = Some (username, password)
        /\ username <> "" /\ password <> ""
        /\ authenticate username password = Some user
        /\ User.is_active user = true
        /\ fst answer = LoggedIn user (for_user user))
  /\ (forall user tokens,
        fst answer = LoggedIn user tokens ->
        User.is_active user = true /\ tokens = for_user user
        /\ snd answer = 200).
Proof.
  unfold login_view, LoginSerializer_validate, truthy.
  destruct (run_fields payload) as [[username password]|]; simpl.
  - destruct (String.eqb username "") eqn:Eu; simpl.
    { split; [now right|]. split; [|discriminate].
      split; [discriminate|].
      intros [u [p [x [[= <- <-] [Hu _]]]]]. apply String.eqb_eq in Eu.
      contradiction. }
    destruct (String.eqb password "") eqn:Ep; simpl.
    { split; [now right|]. split; [|discriminate].
      split; [discriminate|].
      intros [u [p [x [[= <- <-] [_ [Hp _]]]]]]. apply String.eqb_eq in Ep.
      contradiction. }
    apply String.eqb_neq in Eu, Ep.
    destruct (authenticate username password) as [user|] eqn:Ea.
    + destruct (User.is_active user) eqn:Eactive; simpl.
      * split; [now left|]. split.
        -- split; [|reflexivity]. intros _.
           exists username, password, user. repeat split; assumption.
        -- intros u t [= <- <-]. repeat split. exact Eactive.
      * split; [now right|]. split; [|discriminate].
        split; [discriminate|].
        intros [u [p [x [[= <- <-] [_ [_ [Hx [Hact _]]]]]]]].
        rewrite Ea in Hx. injection Hx as <-. congruence.
    + split; [now right|]. split; [|discriminate].
      split; [discriminate|].
      intros [u [p [x [[= <- <-] [_ [_ [Hx _]]]]]]]. congruence.
  - split; [now right|]. split; [|discriminate].
    split; [discriminate|].
    intros [u [p [x [Hx _]]]]. discriminate.
Qed.
